(** * OpenContrail load-balancer driver: reconciliation of service instances

    Shallow embedding of
    [neutron_plugin_contrail/plugins/opencontrail/loadbalancer/driver.py]
    (class [OpencontrailLoadbalancerDriver]) together with a model of the
    remote object store the driver talks to, and the properties of the
    reconciliation logic. *)

From Stdlib Require Import String List Bool Arith Lia.
From stdpp Require Import base option strings list gmap fin_maps pretty.

Local Open Scope string_scope.
Local Open Scope list_scope.

(** ** Python values used by the driver *)

Abbreviation uuid := string (only parsing).
Abbreviation fq_name := (list string) (only parsing).

(** [sep.join(l)] for a list of strings. *)
Fixpoint str_join (sep : string) (l : list string) : string :=
  match l with
  | [] => ""
  | [x] => x
  | x :: rest => x +:+ sep +:+ str_join sep rest
  end.

(** Truth value of a dictionary entry holding an identifier, [None] or [''] . *)
Definition truthy (v : option string) : bool :=
  match v with
  | None => false
  | Some s => negb (String.eqb s "")
  end.

(** ** Resource model of the remote controller (vnc_api objects) *)

(** A reference entry: [{'to': fq_name, 'uuid': uuid}]. *)
Record Ref := mkRef { ref_to : fq_name; ref_uuid : uuid }.

Record InstanceIp := mkInstanceIp { instance_ip_address : option string }.

Record VirtualMachineInterface := mkVmi {
  virtual_network_refs : option (list Ref);
  instance_ip_back_refs : option (list Ref)
}.

Record VirtualNetwork := mkVnet { vn_fq_name : fq_name }.

Record Project := mkProject { project_fq_name : fq_name }.

Record LoadbalancerPoolType := mkPoolType { subnet_id : string }.

Record LoadbalancerPool := mkPool {
  pool_uuid : uuid;
  pool_fq_name : fq_name;
  loadbalancer_pool_properties : option LoadbalancerPoolType;
  service_instance_refs : option (list Ref)
}.

Record VirtualIp := mkVip {
  virtual_machine_interface_refs : option (list Ref)
}.

Record ServiceTemplate := mkTemplate {
  tmpl_fq_name : fq_name;
  tmpl_uuid : uuid
}.

(** The three fields of [ServiceInstanceType] the driver works with; a fresh
    [ServiceInstanceType()] has all of them unset. *)
Record ServiceInstanceType := mkProps {
  right_virtual_network : option string;
  right_ip_address : option string;
  left_virtual_network : option string
}.

Record ServiceInstance := mkSI {
  si_fq_name : fq_name;
  si_parent_type : option string;
  si_uuid : option uuid;
  service_instance_properties : option ServiceInstanceType;
  service_template_refs : option (list Ref)
}.

#[global] Instance Ref_eq_dec : EqDecision Ref.
Proof. solve_decision. Defined.
#[global] Instance ServiceInstanceType_eq_dec : EqDecision ServiceInstanceType.
Proof. solve_decision. Defined.
#[global] Instance LoadbalancerPoolType_eq_dec : EqDecision LoadbalancerPoolType.
Proof. solve_decision. Defined.
#[global] Instance LoadbalancerPool_eq_dec : EqDecision LoadbalancerPool.
Proof. solve_decision. Defined.
#[global] Instance ServiceInstance_eq_dec : EqDecision ServiceInstance.
Proof. solve_decision. Defined.

Definition ServiceInstanceType_new : ServiceInstanceType := mkProps None None None.

Definition set_right_virtual_network (v : option string) (p : ServiceInstanceType) :=
  mkProps v (right_ip_address p) (left_virtual_network p).
Definition set_right_ip_address (v : option string) (p : ServiceInstanceType) :=
  mkProps (right_virtual_network p) v (left_virtual_network p).
Definition set_left_virtual_network (v : option string) (p : ServiceInstanceType) :=
  mkProps (right_virtual_network p) (right_ip_address p) v.

(** [si_obj.set_service_instance_properties(props)] *)
Definition set_service_instance_properties
    (props : ServiceInstanceType) (si : ServiceInstance) : ServiceInstance :=
  mkSI (si_fq_name si) (si_parent_type si) (si_uuid si) (Some props)
       (service_template_refs si).

(** [si_obj.set_service_template(tmpl)]: the reference list is replaced. *)
Definition set_service_template (tmpl : ServiceTemplate) (si : ServiceInstance)
  : ServiceInstance :=
  mkSI (si_fq_name si) (si_parent_type si) (si_uuid si)
       (service_instance_properties si)
       (Some [mkRef (tmpl_fq_name tmpl) (tmpl_uuid tmpl)]).

Definition set_si_uuid (u : uuid) (si : ServiceInstance) : ServiceInstance :=
  mkSI (si_fq_name si) (si_parent_type si) (Some u)
       (service_instance_properties si) (service_template_refs si).

(** [pool.set_service_instance(si_obj)]: the reference list is replaced by a
    single entry naming the instance; the empty string stands for the ['uuid']
    key that is left out when the instance has no uuid yet. *)
Definition set_service_instance (si : ServiceInstance) (p : LoadbalancerPool)
  : LoadbalancerPool :=
  mkPool (pool_uuid p) (pool_fq_name p) (loadbalancer_pool_properties p)
         (Some [mkRef (si_fq_name si) (default "" (si_uuid si))]).

(** ** The remote object store *)

Record Api := mkApi {
  projects : gmap string Project;
  virtual_networks : gmap string VirtualNetwork;
  virtual_machine_interfaces : gmap string VirtualMachineInterface;
  instance_ips : gmap string InstanceIp;
  loadbalancer_pools : gmap string LoadbalancerPool;
  virtual_ips : gmap string VirtualIp;
  service_templates : gmap (list string) ServiceTemplate;
  service_instances : gmap (list string) ServiceInstance;
  subnets : gmap string string;
  next_uuid : nat
}.

Definition with_service_instances (m : gmap (list string) ServiceInstance) (a : Api) : Api :=
  mkApi (projects a) (virtual_networks a) (virtual_machine_interfaces a)
        (instance_ips a) (loadbalancer_pools a) (virtual_ips a)
        (service_templates a) m (subnets a) (next_uuid a).

Definition with_loadbalancer_pools (m : gmap string LoadbalancerPool) (a : Api) : Api :=
  mkApi (projects a) (virtual_networks a) (virtual_machine_interfaces a)
        (instance_ips a) m (virtual_ips a)
        (service_templates a) (service_instances a) (subnets a) (next_uuid a).

Definition with_next_uuid (n : nat) (a : Api) : Api :=
  mkApi (projects a) (virtual_networks a) (virtual_machine_interfaces a)
        (instance_ips a) (loadbalancer_pools a) (virtual_ips a)
        (service_templates a) (service_instances a) (subnets a) n.

(** ** Exceptions, observable events and the driver monad *)

Inductive exn :=
| NoIdError
| RefsExistError
| BadRequest (resource msg : string)
| NameError (name : string)
| AttributeError (msg : string)
| IndexError.

#[global] Instance exn_eq_dec : EqDecision exn.
Proof. solve_decision. Defined.

Inductive outcome (A : Type) :=
| Return (a : A)
| Raise (e : exn).
Arguments Return {A} a.
Arguments Raise {A} e.

(** Every call on the remote client and every [LOG.error] is recorded. *)
Inductive Event :=
| ProjectRead (id : uuid)
| VirtualNetworkRead (id : uuid)
| VirtualMachineInterfaceRead (id : uuid)
| InstanceIpRead (id : uuid)
| LoadbalancerPoolRead (id : uuid)
| VirtualIpRead (id : uuid)
| ServiceTemplateRead (fq : fq_name)
| ServiceInstanceRead (fq : fq_name)
| SubnetNetworkLookup (subnet : string)
| ServiceInstanceCreate (si : ServiceInstance)
| ServiceInstanceUpdate (si : ServiceInstance)
| ServiceInstanceDelete (fq : fq_name)
| LoadbalancerPoolUpdate (pool : LoadbalancerPool)
| LogError (ex : exn).

(** The calls that ask the remote store to change. *)
Definition is_write (e : Event) : bool :=
  match e with
  | ServiceInstanceCreate _ | ServiceInstanceUpdate _
  | ServiceInstanceDelete _ | LoadbalancerPoolUpdate _ => true
  | _ => false
  end.

Definition is_si_update (e : Event) : bool :=
  match e with ServiceInstanceUpdate _ => true | _ => false end.

Definition is_si_create (e : Event) : bool :=
  match e with ServiceInstanceCreate _ => true | _ => false end.

Definition is_si_delete (e : Event) : bool :=
  match e with ServiceInstanceDelete _ => true | _ => false end.

Definition is_pool_update (e : Event) : bool :=
  match e with LoadbalancerPoolUpdate _ => true | _ => false end.

Definition is_template_read (e : Event) : bool :=
  match e with ServiceTemplateRead _ => true | _ => false end.

Definition writes (evs : list Event) : list Event := List.filter is_write evs.

(** The adapter object: [self._api] and [self._lb_template]. *)
Record Driver := mkDriver {
  _api : Api;
  _lb_template : option ServiceTemplate
}.

(** [OpencontrailLoadbalancerDriver.__init__] *)
Definition __init__ (api : Api) : Driver := mkDriver api None.

Definition M (A : Type) : Type := Driver -> outcome A * Driver * list Event.

Definition ret {A} (a : A) : M A := fun s => (Return a, s, []).

Definition raise {A} (e : exn) : M A := fun s => (Raise e, s, []).

Definition bind {A B} (m : M A) (k : A -> M B) : M B :=
  fun s =>
    match m s with
    | (Return a, s1, ev1) =>
        match k a s1 with
        | (r, s2, ev2) => (r, s2, ev1 ++ ev2)
        end
    | (Raise e, s1, ev1) => (Raise e, s1, ev1)
    end.

Notation "'let*' x ':=' m 'in' k" := (bind m (fun x => k))
  (at level 10, x name, m at level 100, k at level 200).
Notation "m '>>' k" := (bind m (fun _ => k))
  (at level 199, right associativity, only parsing).

(** [try: body except ...: handler]; [handler e] is [None] for an exception
    the [except] clauses do not name. Effects of [body] up to the raise stay. *)
Definition try_except {A} (body : M A) (handler : exn -> option (M A)) : M A :=
  fun s =>
    match body s with
    | (Raise e, s1, ev1) =>
        match handler e with
        | Some h =>
            match h s1 with
            | (r, s2, ev2) => (r, s2, ev1 ++ ev2)
            end
        | None => (Raise e, s1, ev1)
        end
    | r => r
    end.

Definition except_NoIdError {A} (h : M A) (e : exn) : option (M A) :=
  match e with NoIdError => Some h | _ => None end.

Definition except_RefsExistError {A} (h : exn -> M A) (e : exn) : option (M A) :=
  match e with RefsExistError => Some (h e) | _ => None end.

Definition emit (e : Event) : M unit := fun s => (Return tt, s, [e]).

(** [LOG.error(ex)] *)
Definition LOG_error (ex : exn) : M unit := emit (LogError ex).

Definition outcome_of {A} (r : outcome A * Driver * list Event) : outcome A := fst (fst r).
Definition state_of {A} (r : outcome A * Driver * list Event) : Driver := snd (fst r).
Definition events_of {A} (r : outcome A * Driver * list Event) : list Event := snd r.

(** [l[0]] *)
Definition index0 {A} (l : list A) : M A :=
  match l with
  | x :: _ => ret x
  | [] => raise IndexError
  end.

(** ** Operations of the remote client

    Reads fail with [NoIdError] when the resource is absent; a delete fails
    with [RefsExistError] while the resource is still linked from elsewhere. *)

Definition api_read {K} `{Countable K} {V} (ev : Event) (tbl : Api -> gmap K V) (k : K) : M V :=
  fun s =>
    match tbl (_api s) !! k with
    | Some v => (Return v, s, [ev])
    | None => (Raise NoIdError, s, [ev])
    end.

Definition project_read (id : uuid) : M Project :=
  api_read (ProjectRead id) projects id.
Definition virtual_network_read (id : uuid) : M VirtualNetwork :=
  api_read (VirtualNetworkRead id) virtual_networks id.
Definition virtual_machine_interface_read (id : uuid) : M VirtualMachineInterface :=
  api_read (VirtualMachineInterfaceRead id) virtual_machine_interfaces id.
Definition instance_ip_read (id : uuid) : M InstanceIp :=
  api_read (InstanceIpRead id) instance_ips id.
Definition loadbalancer_pool_read (id : uuid) : M LoadbalancerPool :=
  api_read (LoadbalancerPoolRead id) loadbalancer_pools id.
Definition virtual_ip_read (id : uuid) : M VirtualIp :=
  api_read (VirtualIpRead id) virtual_ips id.
Definition service_template_read (fq : fq_name) : M ServiceTemplate :=
  api_read (ServiceTemplateRead fq) service_templates fq.
Definition service_instance_read (fq : fq_name) : M ServiceInstance :=
  api_read (ServiceInstanceRead fq) service_instances fq.

(** A pool links a service instance when one of its references carries the
    instance's uuid. *)
Definition pool_links (si : ServiceInstance) (p : LoadbalancerPool) : bool :=
  match service_instance_refs p, si_uuid si with
  | Some refs, Some u => existsb (fun r => String.eqb (ref_uuid r) u) refs
  | _, _ => false
  end.

Definition has_back_refs (a : Api) (si : ServiceInstance) : bool :=
  existsb (fun kv => pool_links si (snd kv)) (map_to_list (loadbalancer_pools a)).

Definition service_instance_delete (fq : fq_name) : M unit :=
  fun s =>
    let a := _api s in
    match service_instances a !! fq with
    | None => (Raise NoIdError, s, [ServiceInstanceDelete fq])
    | Some si =>
        if has_back_refs a si
        then (Raise RefsExistError, s, [ServiceInstanceDelete fq])
        else (Return tt,
              mkDriver (with_service_instances (delete fq (service_instances a)) a)
                       (_lb_template s),
              [ServiceInstanceDelete fq])
    end.

Definition fresh_uuid (a : Api) : uuid := "uuid-" +:+ pretty (next_uuid a).

(** The server assigns the uuid; the client stores it in the object it was given. *)
Definition service_instance_create (si : ServiceInstance) : M ServiceInstance :=
  fun s =>
    let a := _api s in
    match service_instances a !! si_fq_name si with
    | Some _ => (Raise RefsExistError, s, [ServiceInstanceCreate si])
    | None =>
        let si' := set_si_uuid (fresh_uuid a) si in
        (Return si',
         mkDriver (with_next_uuid (S (next_uuid a))
                    (with_service_instances
                       (<[si_fq_name si := si']> (service_instances a)) a))
                  (_lb_template s),
         [ServiceInstanceCreate si])
    end.

Definition service_instance_update (si : ServiceInstance) : M unit :=
  fun s =>
    let a := _api s in
    match service_instances a !! si_fq_name si with
    | None => (Raise NoIdError, s, [ServiceInstanceUpdate si])
    | Some _ =>
        (Return tt,
         mkDriver (with_service_instances
                     (<[si_fq_name si := si]> (service_instances a)) a)
                  (_lb_template s),
         [ServiceInstanceUpdate si])
    end.

Definition loadbalancer_pool_update (p : LoadbalancerPool) : M unit :=
  fun s =>
    let a := _api s in
    match loadbalancer_pools a !! pool_uuid p with
    | None => (Raise NoIdError, s, [LoadbalancerPoolUpdate p])
    | Some _ =>
        (Return tt,
         mkDriver (with_loadbalancer_pools
                     (<[pool_uuid p := p]> (loadbalancer_pools a)) a)
                  (_lb_template s),
         [LoadbalancerPoolUpdate p])
    end.

(** Modelled from the spec: [utils.get_subnet_network_id(api, subnet_id)] is
    not part of the driver module. It yields the id of the network that owns
    the pool's backend subnet; a failed lookup is an error that propagates to
    the caller. *)
Definition get_subnet_network_id (subnet : string) : M uuid :=
  fun s =>
    match subnets (_api s) !! subnet with
    | Some net => (Return net, s, [SubnetNetworkLookup subnet])
    | None => (Raise NoIdError, s, [SubnetNetworkLookup subnet])
    end.

(** ** The driver *)

Definition LOADBALANCER_SERVICE_TEMPLATE : fq_name :=
  ["default-domain"; "haproxy-loadbalancer-template"].

Definition get_lb_template : M (option ServiceTemplate) :=
  fun s => (Return (_lb_template s), s, []).

Definition set_lb_template (t : option ServiceTemplate) : M unit :=
  fun s => (Return tt, mkDriver (_api s) t, []).

(** Evaluation of a name that is bound neither in the function (parameters
    and locals) nor at module level nor as a builtin. *)
Definition unbound_name (name : string) : M string := raise (NameError name).

(** [_get_template(self)]. Its only parameter is [self] and its only local is
    [tmpl]; the module defines no global [pool_id], so building the message
    in the [except] clause evaluates an unbound name. *)
Definition _get_template : M unit :=
  let* cached := get_lb_template in
  match cached with
  | Some _ => ret tt
  | None =>
      let* tmpl :=
        try_except (service_template_read LOADBALANCER_SERVICE_TEMPLATE)
          (except_NoIdError
             (let* pool_id := unbound_name "pool_id" in
              let msg := "Loadbalancer service-template not found when "
                         +:+ "attempting to create pool " +:+ pool_id in
              raise (BadRequest "pool" msg))) in
      set_lb_template (Some tmpl)
  end.

(** [_get_virtual_ip_interface(self, vip)] *)
Definition _get_virtual_ip_interface (vip : VirtualIp)
  : M (option VirtualMachineInterface) :=
  match virtual_machine_interface_refs vip with
  | None => ret None
  | Some vmi_list =>
      try_except
        (let* r := index0 vmi_list in
         let* vmi := virtual_machine_interface_read (ref_uuid r) in
         ret (Some vmi))
        (except_NoIdError (LOG_error NoIdError >> ret None))
  end.

(** [_get_interface_address(self, vmi)] *)
Definition _get_interface_address (vmi : VirtualMachineInterface)
  : M (option string) :=
  match instance_ip_back_refs vmi with
  | None => ret None
  | Some ip_refs =>
      try_except
        (let* r := index0 ip_refs in
         let* iip := instance_ip_read (ref_uuid r) in
         ret (instance_ip_address iip))
        (except_NoIdError (LOG_error NoIdError >> ret None))
  end.

(** [l.join(sep)] on a Python list: lists have no [join] attribute. *)
Definition list_join (l : list string) (sep : string) : M string :=
  raise (AttributeError "'list' object has no attribute 'join'").

(** [pool.get_loadbalancer_pool_properties().subnet_id] *)
Definition pool_attrs_subnet_id (pool_attrs : option LoadbalancerPoolType) : M string :=
  match pool_attrs with
  | Some attrs => ret (subnet_id attrs)
  | None => raise (AttributeError "'NoneType' object has no attribute 'subnet_id'")
  end.

(** [_calculate_instance_properties(self, pool, vip)]; the result [None] means
    that the pair has no configuration at present. *)
Definition _calculate_instance_properties (pool : LoadbalancerPool) (vip : VirtualIp)
  : M (option ServiceInstanceType) :=
  let props := ServiceInstanceType_new in
  let* vmi := _get_virtual_ip_interface vip in
  match vmi with
  | None => ret None
  | Some vmi =>
      match virtual_network_refs vmi with
      | None => ret None
      | Some vnet_refs =>
          let* vnet_ref := index0 vnet_refs in
          let props :=
            set_right_virtual_network (Some (str_join ":" (ref_to vnet_ref))) props in
          let* addr := _get_interface_address vmi in
          let props := set_right_ip_address addr props in
          match right_ip_address props with
          | None => ret None
          | Some _ =>
              let pool_attrs := loadbalancer_pool_properties pool in
              let* subnet := pool_attrs_subnet_id pool_attrs in
              let* backnet_id := get_subnet_network_id subnet in
              if negb (String.eqb backnet_id (ref_uuid vnet_ref)) then
                let* vnet :=
                  try_except
                    (let* v := virtual_network_read backnet_id in ret (Some v))
                    (except_NoIdError (LOG_error NoIdError >> ret None)) in
                match vnet with
                | None => ret None
                | Some vnet =>
                    let* name := list_join (vn_fq_name vnet) ":" in
                    ret (Some (set_left_virtual_network (Some name) props))
                end
              else ret (Some props)
          end
      end
  end.

(** [getattr(obj, field)] on a properties record that may be [None]. *)
Definition getattr (obj : option ServiceInstanceType) (field : string)
  : M (option string) :=
  match obj with
  | None => raise (AttributeError ("'NoneType' object has no attribute '" +:+ field +:+ "'"))
  | Some p =>
      if String.eqb field "right_virtual_network" then ret (right_virtual_network p)
      else if String.eqb field "right_ip_address" then ret (right_ip_address p)
      else if String.eqb field "left_virtual_network" then ret (left_virtual_network p)
      else raise (AttributeError ("ServiceInstanceType instance has no attribute '"
                                  +:+ field +:+ "'"))
  end.

Definition fields : list string :=
  ["right_virtual_network"; "right_ip_address"; "left_virtual_network"].

(** The [for field in fields: ... break] loop: the flag it leaves in [update]. *)
Fixpoint fields_loop (current : option ServiceInstanceType)
    (nprops : ServiceInstanceType) (fs : list string) : M bool :=
  match fs with
  | [] => ret false
  | field :: rest =>
      let* a := getattr current field in
      let* b := getattr (Some nprops) field in
      if negb (bool_decide (a = b)) then ret true
      else fields_loop current nprops rest
  end.

(** [_service_instance_update_props(self, si_obj, nprops)]: the object is
    mutated, so the new object is returned next to the flag. *)
Definition _service_instance_update_props
    (si_obj : ServiceInstance) (nprops : ServiceInstanceType)
  : M (ServiceInstance * bool) :=
  let current := service_instance_properties si_obj in
  let* update := fields_loop current nprops fields in
  let si_obj := set_service_instance_properties nprops si_obj in
  ret (si_obj, update).

(** The qualified name derived in [_update_loadbalancer_instance]:
    [pool.get_fq_name()[:-1]] with [pool_id] appended. *)
Definition instance_fq_name (pool : LoadbalancerPool) (pool_id : string) : fq_name :=
  removelast (pool_fq_name pool) ++ [pool_id].

(** [ServiceInstance(fq_name=..., parent_type='project',
    service_instance_properties=props)] *)
Definition ServiceInstance_new (fq : fq_name) (props : ServiceInstanceType)
  : ServiceInstance :=
  mkSI fq (Some "project") None (Some props) None.

(** [si_obj.set_service_template(self._lb_template)] *)
Definition set_service_template_cached (si_obj : ServiceInstance) : M ServiceInstance :=
  let* tmpl := get_lb_template in
  match tmpl with
  | Some t => ret (set_service_template t si_obj)
  | None => raise (AttributeError "'NoneType' object has no attribute 'get_fq_name'")
  end.

(** [si_refs is None or si_refs[0]['uuid'] != si_obj.uuid] *)
Definition pool_reference_stale (si_refs : option (list Ref)) (si_obj : ServiceInstance)
  : M bool :=
  match si_refs with
  | None => ret true
  | Some refs =>
      let* r := index0 refs in
      ret (negb (bool_decide (Some (ref_uuid r) = si_uuid si_obj)))
  end.

(** The [try: service_instance_delete(fq_name=fq_name) except RefsExistError
    as ex: LOG.error(ex)] statement, which occurs verbatim at lines 139-142
    and at lines 174-177. *)
Definition try_service_instance_delete (fq_name : fq_name) : M unit :=
  try_except (service_instance_delete fq_name)
    (except_RefsExistError (fun ex => LOG_error ex)).

(** Lines 147-158 of [_update_loadbalancer_instance]: the [try] statement
    that reads the instance and updates it, or creates it on [NoIdError]. *)
Definition resolve_service_instance (fq_name : fq_name) (props : ServiceInstanceType)
  : M ServiceInstance :=
  try_except
    (let* si_obj := service_instance_read fq_name in
     let* r := _service_instance_update_props si_obj props in
     let si_obj := fst r in
     let update := snd r in
     (if update then service_instance_update si_obj else ret tt) >>
     ret si_obj)
    (except_NoIdError
       (let si_obj := ServiceInstance_new fq_name props in
        let* si_obj := set_service_template_cached si_obj in
        service_instance_create si_obj)).

(** Lines 160-163 of [_update_loadbalancer_instance]: the pool's reference. *)
Definition update_pool_reference (pool : LoadbalancerPool) (si_obj : ServiceInstance)
  : M unit :=
  let si_refs := service_instance_refs pool in
  let* stale := pool_reference_stale si_refs si_obj in
  if stale : bool then
    let pool := set_service_instance si_obj pool in
    loadbalancer_pool_update pool
  else ret tt.

(** [_update_loadbalancer_instance(self, pool_id, vip_id)] *)
Definition _update_loadbalancer_instance (pool_id vip_id : string) : M unit :=
  let* pool :=
    try_except (loadbalancer_pool_read pool_id)
      (except_NoIdError
         (let msg := "Unable to retrieve pool " +:+ pool_id in
          raise (BadRequest "pool" msg))) in
  let* vip :=
    try_except (virtual_ip_read vip_id)
      (except_NoIdError
         (let msg := "Unable to retrieve virtual-ip " +:+ vip_id in
          raise (BadRequest "vip" msg))) in
  let fq_name := instance_fq_name pool pool_id in
  let* props := _calculate_instance_properties pool vip in
  match props with
  | None => try_service_instance_delete fq_name
  | Some props =>
      _get_template >>
      let* si_obj := resolve_service_instance fq_name props in
      update_pool_reference pool si_obj
  end.

(** [_clear_loadbalancer_instance(self, tenant_id, pool_id)] *)
Definition _clear_loadbalancer_instance (tenant_id pool_id : string) : M unit :=
  let* project :=
    try_except (let* p := project_read tenant_id in ret (Some p))
      (except_NoIdError (LOG_error NoIdError >> ret None)) in
  match project with
  | None => ret tt
  | Some project =>
      let fq_name := project_fq_name project ++ [pool_id] in
      try_service_instance_delete fq_name
  end.

(** ** Lifecycle handlers *)

(** The resource dictionaries handed over by the load-balancer plugin. *)
Record VipDict := mkVipDict {
  vip_id_ : string;
  vip_pool_id : option string;
  vip_tenant_id : string
}.

Record PoolDict := mkPoolDict {
  pool_id_ : string;
  pool_vip_id : option string;
  pool_tenant_id : string
}.

Definition create_vip (vip : VipDict) : M unit :=
  _get_template >>
  if truthy (vip_pool_id vip)
  then _update_loadbalancer_instance (default "" (vip_pool_id vip)) (vip_id_ vip)
  else ret tt.

Definition update_vip (old_vip vip : VipDict) : M unit :=
  if truthy (vip_pool_id vip)
  then _update_loadbalancer_instance (default "" (vip_pool_id vip)) (vip_id_ vip)
  else if truthy (vip_pool_id old_vip)
  then _clear_loadbalancer_instance (vip_tenant_id old_vip)
         (default "" (vip_pool_id old_vip))
  else ret tt.

Definition delete_vip (vip : VipDict) : M unit :=
  if truthy (vip_pool_id vip)
  then _clear_loadbalancer_instance (vip_tenant_id vip) (default "" (vip_pool_id vip))
  else ret tt.

Definition create_pool (pool : PoolDict) : M unit :=
  _get_template >>
  if truthy (pool_vip_id pool)
  then _update_loadbalancer_instance (pool_id_ pool) (default "" (pool_vip_id pool))
  else ret tt.

Definition update_pool (old_pool pool : PoolDict) : M unit :=
  if truthy (pool_vip_id pool)
  then _update_loadbalancer_instance (pool_id_ pool) (default "" (pool_vip_id pool))
  else _clear_loadbalancer_instance (pool_tenant_id pool) (pool_id_ pool).

Definition delete_pool (pool : PoolDict) : M unit :=
  _clear_loadbalancer_instance (pool_tenant_id pool) (pool_id_ pool).

(** * Vocabulary of the properties *)

Definition prefix_events {A} (evs : list Event) (r : outcome A * Driver * list Event)
  : outcome A * Driver * list Event :=
  (outcome_of r, state_of r, evs ++ events_of r).

(** The template is cached already, or the store has it. *)
Definition template_available (s : Driver) : Prop :=
  is_Some (_lb_template s)
  \/ is_Some (service_templates (_api s) !! LOADBALANCER_SERVICE_TEMPLATE).

(** Number of the three compared fields in which two property records differ. *)
Definition differing_fields (a b : ServiceInstanceType) : nat :=
  (if bool_decide (right_virtual_network a = right_virtual_network b) then 0 else 1)
  + (if bool_decide (right_ip_address a = right_ip_address b) then 0 else 1)
  + (if bool_decide (left_virtual_network a = left_virtual_network b) then 0 else 1).

(** No bound address can be resolved for an interface. *)
Inductive address_unresolved (a : Api) (vmi : VirtualMachineInterface) : Prop :=
| no_ip_reference :
    instance_ip_back_refs vmi = None -> address_unresolved a vmi
| ip_not_found i rest :
    instance_ip_back_refs vmi = Some (i :: rest) ->
    instance_ips a !! ref_uuid i = None -> address_unresolved a vmi
| ip_without_address i rest iip :
    instance_ip_back_refs vmi = Some (i :: rest) ->
    instance_ips a !! ref_uuid i = Some iip ->
    instance_ip_address iip = None -> address_unresolved a vmi.

(** The VIP side of a pool/VIP pair cannot be resolved. *)
Inductive no_configuration (a : Api) (vip : VirtualIp) : Prop :=
| no_interface_reference :
    virtual_machine_interface_refs vip = None -> no_configuration a vip
| interface_not_found r rest :
    virtual_machine_interface_refs vip = Some (r :: rest) ->
    virtual_machine_interfaces a !! ref_uuid r = None -> no_configuration a vip
| no_network_reference r rest vmi :
    virtual_machine_interface_refs vip = Some (r :: rest) ->
    virtual_machine_interfaces a !! ref_uuid r = Some vmi ->
    virtual_network_refs vmi = None -> no_configuration a vip
| no_bound_address r rest vmi n nrest :
    virtual_machine_interface_refs vip = Some (r :: rest) ->
    virtual_machine_interfaces a !! ref_uuid r = Some vmi ->
    virtual_network_refs vmi = Some (n :: nrest) ->
    address_unresolved a vmi -> no_configuration a vip.

(** The uuid of the instance a reconcile call ends up with: that of the
    stored instance, or the one the store hands out on creation. *)
Definition resolved_uuid (a : Api) (fq : fq_name) : option uuid :=
  match service_instances a !! fq with
  | Some si => si_uuid si
  | None => Some (fresh_uuid a)
  end.

(** The pool has no stored reference, or its stored reference names another uuid. *)
Definition reference_differs (refs : option (list Ref)) (u : option uuid) : Prop :=
  refs = None \/ exists r rest, refs = Some (r :: rest) /\ Some (ref_uuid r) <> u.

(** A stored instance sits under its own qualified name and has a properties record. *)
Definition stored_instance_ok (fq : fq_name) (si : ServiceInstance) : Prop :=
  si_fq_name si = fq /\ is_Some (service_instance_properties si).

(** ** Concrete stores *)

Module Scenario.

Definition tmpl : ServiceTemplate :=
  mkTemplate LOADBALANCER_SERVICE_TEMPLATE "tmpl-uuid".

Definition templates : gmap (list string) ServiceTemplate :=
  {[ LOADBALANCER_SERVICE_TEMPLATE := tmpl ]}.

Definition scope : fq_name := ["default-domain"; "demo"].

(** Pool [p1] on a subnet of the given name, with the given references. *)
Definition pool_on (subnet : string) (refs : option (list Ref)) : LoadbalancerPool :=
  mkPool "p1" (scope ++ ["pool1"]) (Some (mkPoolType subnet)) refs.

Definition vmi1 : VirtualMachineInterface :=
  mkVmi (Some [mkRef ["net-A"] "net-a-id"]) (Some [mkRef ["iip1"] "iip1"]).

(** VIP [v1] attached to an interface on [net-A] bound to 10.0.0.5. *)
Definition vip_bound : VirtualIp := mkVip (Some [mkRef (scope ++ ["vmi1"]) "vmi1"]).

(** VIP [v1] without an interface. *)
Definition vip_unbound : VirtualIp := mkVip None.

Definition fq : fq_name := scope ++ ["p1"].

Definition props_A : ServiceInstanceType :=
  mkProps (Some "net-A") (Some "10.0.0.5") None.

Definition instance_with (props : ServiceInstanceType) : ServiceInstance :=
  mkSI fq (Some "project") (Some "si-1") (Some props)
       (Some [mkRef LOADBALANCER_SERVICE_TEMPLATE "tmpl-uuid"]).

Definition store (pool : LoadbalancerPool) (vip : VirtualIp)
    (tmpls : gmap (list string) ServiceTemplate)
    (sis : gmap (list string) ServiceInstance) : Api :=
  mkApi {[ "tenant1" := mkProject scope ]}
        {[ "net-a-id" := mkVnet ["net-A"]; "net-b-id" := mkVnet ["net-B"] ]}
        {[ "vmi1" := vmi1 ]}
        {[ "iip1" := mkInstanceIp (Some "10.0.0.5") ]}
        {[ "p1" := pool ]}
        {[ "v1" := vip ]}
        tmpls sis
        {[ "subnet-A" := "net-a-id"; "subnet-B" := "net-b-id" ]}
        0.

(** Pool and VIP on the same network, nothing deployed yet. *)
Definition one_network : Driver :=
  __init__ (store (pool_on "subnet-A" None) vip_bound templates ∅).

(** The pool's subnet belongs to [net-B], the VIP sits on [net-A]. *)
Definition two_networks : Driver :=
  __init__ (store (pool_on "subnet-B" None) vip_bound templates ∅).

(** The well-known template is absent from the store. *)
Definition no_template : Driver :=
  __init__ (store (pool_on "subnet-A" None) vip_bound ∅ ∅).

(** The VIP has no interface and nothing is deployed. *)
Definition unbound : Driver :=
  __init__ (store (pool_on "subnet-A" None) vip_unbound templates ∅).

(** The VIP has no interface and an instance is deployed. *)
Definition unbound_deployed : Driver :=
  __init__ (store (pool_on "subnet-A" None) vip_unbound templates
              {[ fq := instance_with props_A ]}).


(** The deployed instance carries an outdated address. *)
Definition drifted : Driver :=
  __init__ (store (pool_on "subnet-A" None) vip_bound templates
              {[ fq := instance_with (mkProps (Some "net-A") (Some "10.0.0.9") None) ]}).

(** The pool refers to the deployed instance. *)
Definition associated : Driver :=
  __init__ (store (pool_on "subnet-A" (Some [mkRef fq "si-1"])) vip_bound templates
              {[ fq := instance_with props_A ]}).

Definition vip_without_pool : VipDict := mkVipDict "v1" None "tenant1".
Definition pool_without_vip : PoolDict := mkPoolDict "p1" (Some "") "tenant1".

End Scenario.

(** * The whole driver interface *)

(** Member and health-monitor dictionaries are never looked into. *)
Abbreviation Dict := (gmap string string) (only parsing).

Definition stats (pool_id : string) : M unit := ret tt.
Definition create_member (member : Dict) : M unit := ret tt.
Definition update_member (old_member member : Dict) : M unit := ret tt.
Definition delete_member (member : Dict) : M unit := ret tt.
Definition update_pool_health_monitor (old_health_monitor health_monitor : Dict)
    (pool_id : string) : M unit := ret tt.
Definition create_pool_health_monitor (health_monitor : Dict) (pool_id : string)
  : M unit := ret tt.
Definition delete_pool_health_monitor (health_monitor : Dict) (pool_id : string)
  : M unit := ret tt.

(** A call of the load-balancer plugin on the driver. *)
Inductive Call :=
| CreateVip (vip : VipDict)
| UpdateVip (old_vip vip : VipDict)
| DeleteVip (vip : VipDict)
| CreatePool (pool : PoolDict)
| UpdatePool (old_pool pool : PoolDict)
| DeletePool (pool : PoolDict)
| Stats (pool_id : string)
| CreateMember (member : Dict)
| UpdateMember (old_member member : Dict)
| DeleteMember (member : Dict)
| UpdatePoolHealthMonitor (old_health_monitor health_monitor : Dict) (pool_id : string)
| CreatePoolHealthMonitor (health_monitor : Dict) (pool_id : string)
| DeletePoolHealthMonitor (health_monitor : Dict) (pool_id : string).

Definition perform (c : Call) : M unit :=
  match c with
  | CreateVip vip => create_vip vip
  | UpdateVip old_vip vip => update_vip old_vip vip
  | DeleteVip vip => delete_vip vip
  | CreatePool pool => create_pool pool
  | UpdatePool old_pool pool => update_pool old_pool pool
  | DeletePool pool => delete_pool pool
  | Stats pool_id => stats pool_id
  | CreateMember member => create_member member
  | UpdateMember old_member member => update_member old_member member
  | DeleteMember member => delete_member member
  | UpdatePoolHealthMonitor old hm pool_id => update_pool_health_monitor old hm pool_id
  | CreatePoolHealthMonitor hm pool_id => create_pool_health_monitor hm pool_id
  | DeletePoolHealthMonitor hm pool_id => delete_pool_health_monitor hm pool_id
  end.

(** Calls arrive one after another on the same adapter; a call that raises
    leaves the adapter in the state it had reached and later calls go on. *)
Fixpoint perform_all (cs : list Call) (s : Driver) : Driver * list Event :=
  match cs with
  | [] => (s, [])
  | c :: rest =>
      let r := perform c s in
      let r' := perform_all rest (state_of r) in
      (fst r', events_of r ++ snd r')
  end.

(** A relation between the state before, the state after and the events of a
    run holds for every run of a computation. *)
Definition respects (R : Driver -> Driver -> list Event -> Prop) {A} (m : M A) : Prop :=
  forall s, R s (state_of (m s)) (events_of (m s)).

(** A cached template stays cached and is not read again. *)
Definition cache_kept (s s' : Driver) (evs : list Event) : Prop :=
  forall t, _lb_template s = Some t ->
            _lb_template s' = Some t /\ List.filter is_template_read evs = [].

(** Nothing is created or altered: pools and the template cache are the
    same, every instance left was there before, and no create, update or
    template read call was made. *)
Definition only_removes (s s' : Driver) (evs : list Event) : Prop :=
  loadbalancer_pools (_api s') = loadbalancer_pools (_api s)
  /\ _lb_template s' = _lb_template s
  /\ service_instances (_api s') ⊆ service_instances (_api s)
  /\ List.filter (fun e => is_si_create e || is_si_update e || is_pool_update e
                           || is_template_read e) evs = [].

(** The VIP's first interface is found, its first network reference is [n]
    and its first bound instance-ip holds the address [addr]. *)
Definition vip_side (a : Api) (vip : VirtualIp) (n : Ref) (addr : string) : Prop :=
  exists r rest vmi nrest i irest iip,
    virtual_machine_interface_refs vip = Some (r :: rest)
    /\ virtual_machine_interfaces a !! ref_uuid r = Some vmi
    /\ virtual_network_refs vmi = Some (n :: nrest)
    /\ instance_ip_back_refs vmi = Some (i :: irest)
    /\ instance_ips a !! ref_uuid i = Some iip
    /\ instance_ip_address iip = Some addr.

(** A reference list the calculator indexes is present but empty. *)
Inductive empty_reference_list (a : Api) (vip : VirtualIp) : Prop :=
| empty_interface_list :
    virtual_machine_interface_refs vip = Some [] -> empty_reference_list a vip
| empty_network_list r rest vmi :
    virtual_machine_interface_refs vip = Some (r :: rest) ->
    virtual_machine_interfaces a !! ref_uuid r = Some vmi ->
    virtual_network_refs vmi = Some [] -> empty_reference_list a vip
| empty_address_list r rest vmi n nrest :
    virtual_machine_interface_refs vip = Some (r :: rest) ->
    virtual_machine_interfaces a !! ref_uuid r = Some vmi ->
    virtual_network_refs vmi = Some (n :: nrest) ->
    instance_ip_back_refs vmi = Some [] -> empty_reference_list a vip.

(** ** Further concrete stores *)

Module Cases.

(** The pool's subnet belongs to a network that is not in the store. *)
Definition dangling_backend : Driver :=
  __init__
    (mkApi {[ "tenant1" := mkProject Scenario.scope ]}
           {[ "net-a-id" := mkVnet ["net-A"] ]}
           {[ "vmi1" := Scenario.vmi1 ]}
           {[ "iip1" := mkInstanceIp (Some "10.0.0.5") ]}
           {[ "p1" := Scenario.pool_on "subnet-C" None ]}
           {[ "v1" := Scenario.vip_bound ]}
           Scenario.templates ∅
           {[ "subnet-C" := "net-c-id" ]}
           0).

(** The VIP carries an interface reference list without entries. *)
Definition vip_empty_list : VirtualIp := mkVip (Some []).

Definition empty_list : Driver :=
  __init__ (Scenario.store (Scenario.pool_on "subnet-A" None) vip_empty_list
              Scenario.templates {[ Scenario.fq := Scenario.instance_with Scenario.props_A ]}).

(** The stored instance has no properties record. *)
Definition bare_instance : ServiceInstance :=
  mkSI Scenario.fq (Some "project") (Some "si-1") None None.

Definition bare : Driver :=
  __init__ (Scenario.store (Scenario.pool_on "subnet-A" None) Scenario.vip_bound
              Scenario.templates {[ Scenario.fq := bare_instance ]}).

(** The adapter of [Scenario.one_network] with the template cached, on a
    store that has lost the template since. *)
Definition cached : Driver :=
  mkDriver (Scenario.store (Scenario.pool_on "subnet-A" None) Scenario.vip_bound ∅ ∅)
           (Some Scenario.tmpl).

Definition vip_of_p1 : VipDict := mkVipDict "v1" (Some "p1") "tenant1".
Definition pool_with_v1 : PoolDict := mkPoolDict "p1" (Some "v1") "tenant1".

End Cases.

(** * Properties *)

Ltac unfold_monad :=
  unfold index0, LOG_error, unbound_name in *;
  unfold bind, try_except, ret, raise, emit, api_read,
         except_NoIdError, except_RefsExistError, get_lb_template,
         set_lb_template in *.

Ltac unfold_reads :=
  unfold project_read, virtual_network_read, virtual_machine_interface_read,
         instance_ip_read, loadbalancer_pool_read, virtual_ip_read,
         service_template_read, service_instance_read, get_subnet_network_id in *.

Ltac unfold_calculator :=
  unfold _calculate_instance_properties, _get_virtual_ip_interface,
         _get_interface_address, pool_attrs_subnet_id, list_join in *;
  unfold_reads; unfold_monad.

(** One step of symbolic execution: case analysis on an innermost scrutinee. *)
Ltac exec_step :=
  match goal with
  | |- context [match ?x with _ => _ end] =>
      lazymatch x with
      | context [match _ with _ => _ end] => fail
      | _ => destruct x eqn:?
      end
  end; cbn.

Ltac exec := cbn; repeat exec_step.

Lemma run_eta {A} (r : outcome A * Driver * list Event) :
  r = (outcome_of r, state_of r, events_of r).
Proof. destruct r as [[o d] e]. reflexivity. Qed.

Lemma writes_app (e1 e2 : list Event) : writes (e1 ++ e2) = writes e1 ++ writes e2.
Proof. unfold writes. apply List.filter_app. Qed.

(** ** The property calculator *)

Section Calculator.

Variables (pool : LoadbalancerPool) (vip : VirtualIp).

(** The calculator only reads: the adapter and the store are as before. *)
Lemma calculate_state s :
  state_of (_calculate_instance_properties pool vip s) = s.
Proof. unfold_calculator. exec; reflexivity. Qed.

Lemma calculate_no_writes s :
  writes (events_of (_calculate_instance_properties pool vip s)) = [].
Proof. unfold_calculator. exec; reflexivity. Qed.

Lemma calculate_no_template_read s :
  List.filter is_template_read
    (events_of (_calculate_instance_properties pool vip s)) = [].
Proof. unfold_calculator. exec; reflexivity. Qed.

(** The result depends on the pool's properties and on the interface,
    address, network and subnet tables only. *)
Lemma calculate_frame pool' s s' :
  loadbalancer_pool_properties pool' = loadbalancer_pool_properties pool ->
  virtual_machine_interfaces (_api s') = virtual_machine_interfaces (_api s) ->
  instance_ips (_api s') = instance_ips (_api s) ->
  virtual_networks (_api s') = virtual_networks (_api s) ->
  subnets (_api s') = subnets (_api s) ->
  outcome_of (_calculate_instance_properties pool' vip s')
    = outcome_of (_calculate_instance_properties pool vip s)
  /\ events_of (_calculate_instance_properties pool' vip s')
    = events_of (_calculate_instance_properties pool vip s).
Proof.
  destruct s as [a c], s' as [a' c'], a, a', pool as [? ? pp ?], pool' as [? ? pp' ?].
  cbn. intros; subst. unfold_calculator.
  exec; split; reflexivity.
Qed.

(** No calculation that yields properties carries a backend network: the
    branch for two distinct networks never gets past [list_join]. *)
Lemma calculate_left_unset s props :
  outcome_of (_calculate_instance_properties pool vip s) = Return (Some props) ->
  left_virtual_network props = None.
Proof.
  unfold_calculator. exec; intros; simplify_eq; reflexivity.
Qed.

End Calculator.

(** With the calculator's outcome known, its whole run is known. *)
Lemma calculate_run pool vip s o :
  outcome_of (_calculate_instance_properties pool vip s) = o ->
  _calculate_instance_properties pool vip s
    = (o, s, events_of (_calculate_instance_properties pool vip s)).
Proof.
  intros <-. rewrite (run_eta (_calculate_instance_properties pool vip s)) at 1.
  rewrite calculate_state. reflexivity.
Qed.

(** ** The template cache *)


Lemma get_template_cached s t :
  _lb_template s = Some t -> _get_template s = (Return tt, s, []).
Proof. intros H. unfold _get_template. unfold_reads. unfold_monad. rewrite H. reflexivity. Qed.

Lemma get_template_fetch s t :
  _lb_template s = None ->
  service_templates (_api s) !! LOADBALANCER_SERVICE_TEMPLATE = Some t ->
  _get_template s
    = (Return tt, mkDriver (_api s) (Some t),
       [ServiceTemplateRead LOADBALANCER_SERVICE_TEMPLATE]).
Proof.
  intros H Ht. unfold _get_template. unfold_reads. unfold_monad.
  rewrite H. cbn. rewrite Ht. reflexivity.
Qed.

Lemma get_template_missing s :
  _lb_template s = None ->
  service_templates (_api s) !! LOADBALANCER_SERVICE_TEMPLATE = None ->
  _get_template s
    = (Raise (NameError "pool_id"), s,
       [ServiceTemplateRead LOADBALANCER_SERVICE_TEMPLATE]).
Proof.
  intros H Ht. unfold _get_template. unfold_reads. unfold_monad.
  rewrite H. cbn. rewrite Ht. reflexivity.
Qed.

(** Whatever happens, loading the template leaves the store alone and calls
    nothing but the template read. *)
Lemma get_template_api s :
  _api (state_of (_get_template s)) = _api s
  /\ writes (events_of (_get_template s)) = [].
Proof.
  unfold _get_template. unfold_reads. unfold_monad. exec; split; reflexivity.
Qed.

Lemma get_template_ok s :
  template_available s ->
  exists t evt,
    _get_template s = (Return tt, mkDriver (_api s) (Some t), evt)
    /\ writes evt = [] /\ List.filter is_si_update evt = []
    /\ List.filter is_pool_update evt = [].
Proof.
  intros Hav. destruct (_lb_template s) as [t|] eqn:Hc.
  - exists t, []. rewrite (get_template_cached s t Hc).
    destruct s as [a c]; cbn in *; subst. auto.
  - destruct Hav as [[t Ht]|[t Ht]]; [congruence|].
    exists t, [ServiceTemplateRead LOADBALANCER_SERVICE_TEMPLATE].
    rewrite (get_template_fetch s t Hc Ht). auto.
Qed.

(** ** Comparing the stored properties with the desired ones *)


Lemma fields_loop_run cur nprops s :
  fields_loop (Some cur) nprops fields s
    = (Return (negb (Nat.eqb (differing_fields cur nprops) 0)), s, []).
Proof.
  unfold differing_fields. destruct cur as [a b c], nprops as [a' b' c'].
  unfold fields, fields_loop, getattr. unfold_monad. cbn.
  repeat case_bool_decide; cbn; reflexivity.
Qed.

Lemma update_props_run si cur nprops s :
  service_instance_properties si = Some cur ->
  _service_instance_update_props si nprops s
    = (Return (set_service_instance_properties nprops si,
               negb (Nat.eqb (differing_fields cur nprops) 0)), s, []).
Proof.
  intros H. unfold _service_instance_update_props. unfold bind at 1.
  rewrite H, fields_loop_run. reflexivity.
Qed.

Lemma update_props_none si nprops s :
  service_instance_properties si = None ->
  exists msg, _service_instance_update_props si nprops s
    = (Raise (AttributeError msg), s, []).
Proof.
  intros H. unfold _service_instance_update_props. unfold bind at 1.
  rewrite H. cbn. eexists. reflexivity.
Qed.

Lemma no_writes_no_kind (evs : list Event) :
  writes evs = [] ->
  List.filter is_si_update evs = [] /\ List.filter is_si_create evs = []
  /\ List.filter is_pool_update evs = [] /\ List.filter is_si_delete evs = [].
Proof.
  unfold writes. induction evs as [|e evs IH]; cbn; [auto|].
  destruct e; cbn; intros H; try discriminate; auto.
Qed.

(** ** Deleting the instance *)

Lemma try_delete_run fq s :
  try_service_instance_delete fq s =
    match service_instances (_api s) !! fq with
    | None => (Raise NoIdError, s, [ServiceInstanceDelete fq])
    | Some si =>
        if has_back_refs (_api s) si
        then (Return tt, s, [ServiceInstanceDelete fq; LogError RefsExistError])
        else (Return tt,
              mkDriver (with_service_instances (delete fq (service_instances (_api s)))
                          (_api s)) (_lb_template s),
              [ServiceInstanceDelete fq])
    end.
Proof.
  unfold try_service_instance_delete, service_instance_delete. unfold_monad.
  exec; reflexivity.
Qed.

(** Only [RefsExistError] is absorbed by the statement. *)
Lemma try_delete_outcome fq s :
  outcome_of (try_service_instance_delete fq s) =
    match outcome_of (service_instance_delete fq s) with
    | Raise RefsExistError => Return tt
    | o => o
    end.
Proof.
  unfold try_service_instance_delete, service_instance_delete. unfold_monad.
  exec; reflexivity.
Qed.

Lemma try_delete_events fq s :
  writes (events_of (try_service_instance_delete fq s)) = [ServiceInstanceDelete fq]
  /\ List.filter is_template_read (events_of (try_service_instance_delete fq s)) = []
  /\ _lb_template (state_of (try_service_instance_delete fq s)) = _lb_template s.
Proof. rewrite try_delete_run. exec; auto. Qed.

(** ** Reading, updating or creating the instance *)

Section Resolve.

Variables (fq : fq_name) (props : ServiceInstanceType) (s : Driver).

Lemma resolve_found_same si cur :
  service_instances (_api s) !! fq = Some si ->
  service_instance_properties si = Some cur ->
  differing_fields cur props = 0 ->
  resolve_service_instance fq props s
    = (Return (set_service_instance_properties props si), s, [ServiceInstanceRead fq]).
Proof.
  intros Hsi Hcur Hd. unfold resolve_service_instance, service_instance_read.
  unfold try_except, bind at 1, api_read. rewrite Hsi.
  unfold bind at 1. rewrite (update_props_run _ _ _ _ Hcur), Hd. reflexivity.
Qed.

Lemma resolve_found_drift si cur :
  service_instances (_api s) !! fq = Some si ->
  si_fq_name si = fq ->
  service_instance_properties si = Some cur ->
  differing_fields cur props <> 0 ->
  resolve_service_instance fq props s
    = (Return (set_service_instance_properties props si),
       mkDriver (with_service_instances
                   (<[fq := set_service_instance_properties props si]>
                      (service_instances (_api s))) (_api s))
                (_lb_template s),
       [ServiceInstanceRead fq;
        ServiceInstanceUpdate (set_service_instance_properties props si)]).
Proof.
  intros Hsi Hfq Hcur Hd. unfold resolve_service_instance, service_instance_read.
  unfold try_except, bind at 1, api_read. rewrite Hsi.
  unfold bind at 1. rewrite (update_props_run _ _ _ _ Hcur).
  apply Nat.eqb_neq in Hd. rewrite Hd. cbn.
  unfold bind, service_instance_update, ret. cbn. rewrite Hfq, Hsi. reflexivity.
Qed.

Lemma resolve_created t :
  service_instances (_api s) !! fq = None ->
  _lb_template s = Some t ->
  let si0 := set_service_template t (ServiceInstance_new fq props) in
  resolve_service_instance fq props s
    = (Return (set_si_uuid (fresh_uuid (_api s)) si0),
       mkDriver (with_next_uuid (S (next_uuid (_api s)))
                   (with_service_instances
                      (<[fq := set_si_uuid (fresh_uuid (_api s)) si0]>
                         (service_instances (_api s))) (_api s)))
                (_lb_template s),
       [ServiceInstanceRead fq; ServiceInstanceCreate si0]).
Proof.
  intros Hsi Ht. unfold resolve_service_instance, service_instance_read.
  unfold try_except, bind at 1, api_read. rewrite Hsi. cbn.
  unfold set_service_template_cached, service_instance_create. unfold_monad.
  rewrite Ht. cbn. rewrite Hsi. cbn. rewrite Ht. reflexivity.
Qed.

End Resolve.

(** ** The pool's reference *)

Section PoolReference.

Variables (pool : LoadbalancerPool) (si_obj : ServiceInstance) (s : Driver).

Lemma reference_stale :
  reference_differs (service_instance_refs pool) (si_uuid si_obj) ->
  update_pool_reference pool si_obj s
    = loadbalancer_pool_update (set_service_instance si_obj pool) s.
Proof.
  unfold update_pool_reference, pool_reference_stale. unfold_monad.
  intros [H|(r & rest & H & Hne)]; rewrite H; cbn.
  - destruct (loadbalancer_pool_update _ s) as [[o d] e]. reflexivity.
  - rewrite bool_decide_eq_false_2 by exact Hne. cbn.
    destruct (loadbalancer_pool_update _ s) as [[o d] e]. reflexivity.
Qed.

Lemma reference_current r rest :
  service_instance_refs pool = Some (r :: rest) ->
  Some (ref_uuid r) = si_uuid si_obj ->
  update_pool_reference pool si_obj s = (Return tt, s, []).
Proof.
  intros H Heq. unfold update_pool_reference, pool_reference_stale. unfold_monad.
  rewrite H. cbn. rewrite bool_decide_eq_true_2 by exact Heq. reflexivity.
Qed.

Lemma reference_empty :
  service_instance_refs pool = Some [] ->
  update_pool_reference pool si_obj s = (Raise IndexError, s, []).
Proof.
  intros H. unfold update_pool_reference, pool_reference_stale. unfold_monad.
  rewrite H. reflexivity.
Qed.

(** The three cases above are all there is. *)
Lemma reference_cases :
  reference_differs (service_instance_refs pool) (si_uuid si_obj)
  \/ (exists r rest, service_instance_refs pool = Some (r :: rest)
                     /\ Some (ref_uuid r) = si_uuid si_obj)
  \/ service_instance_refs pool = Some [].
Proof.
  unfold reference_differs. destruct (service_instance_refs pool) as [[|r rest]|]; auto.
  destruct (decide (Some (ref_uuid r) = si_uuid si_obj)); [right; left|left; right]; eauto.
Qed.

Lemma pool_update_run p :
  loadbalancer_pool_update p s =
    match loadbalancer_pools (_api s) !! pool_uuid p with
    | None => (Raise NoIdError, s, [LoadbalancerPoolUpdate p])
    | Some _ =>
        (Return tt,
         mkDriver (with_loadbalancer_pools
                     (<[pool_uuid p := p]> (loadbalancer_pools (_api s))) (_api s))
                  (_lb_template s),
         [LoadbalancerPoolUpdate p])
    end.
Proof. reflexivity. Qed.

Lemma pool_update_events p :
  events_of (loadbalancer_pool_update p s) = [LoadbalancerPoolUpdate p].
Proof. rewrite pool_update_run. destruct (_ !! _); reflexivity. Qed.

End PoolReference.

(** ** The reconcile call, phase by phase *)

Section Reconcile.

Variables (pool_id vip_id : string) (s : Driver).
Variables (pool : LoadbalancerPool) (vip : VirtualIp).
Hypothesis Hpool : loadbalancer_pools (_api s) !! pool_id = Some pool.
Hypothesis Hvip : virtual_ips (_api s) !! vip_id = Some vip.

Let fq := instance_fq_name pool pool_id.
Let reads := [LoadbalancerPoolRead pool_id; VirtualIpRead vip_id]
             ++ events_of (_calculate_instance_properties pool vip s).

Lemma reconcile_no_configuration :
  outcome_of (_calculate_instance_properties pool vip s) = Return None ->
  _update_loadbalancer_instance pool_id vip_id s
    = prefix_events reads (try_service_instance_delete fq s).
Proof.
  intros Hcalc. apply calculate_run in Hcalc.
  unfold _update_loadbalancer_instance, loadbalancer_pool_read, virtual_ip_read.
  unfold bind at 1. unfold try_except at 1, api_read at 1. rewrite Hpool.
  unfold bind at 1. unfold try_except at 1, api_read at 1. rewrite Hvip.
  unfold bind at 1. rewrite Hcalc.
  unfold prefix_events, reads, fq.
  destruct (try_service_instance_delete _ s) as [[o d] e]. reflexivity.
Qed.

Lemma reconcile_configuration props :
  outcome_of (_calculate_instance_properties pool vip s) = Return (Some props) ->
  _update_loadbalancer_instance pool_id vip_id s
    = prefix_events reads
        ((_get_template >>
          let* si_obj := resolve_service_instance fq props in
          update_pool_reference pool si_obj) s).
Proof.
  intros Hcalc. apply calculate_run in Hcalc.
  unfold _update_loadbalancer_instance, loadbalancer_pool_read, virtual_ip_read.
  unfold bind at 1. unfold try_except at 1, api_read at 1. rewrite Hpool.
  unfold bind at 1. unfold try_except at 1, api_read at 1. rewrite Hvip.
  unfold bind at 1. rewrite Hcalc.
  unfold prefix_events, reads, fq.
  match goal with |- context [bind _get_template ?k s] =>
    destruct (bind _get_template k s) as [[o d] e] end.
  reflexivity.
Qed.

Lemma reads_no_writes : writes reads = [].
Proof. unfold reads. rewrite writes_app, calculate_no_writes. reflexivity. Qed.

End Reconcile.

Lemma bind_run_return {A B} (m : M A) (k : A -> M B) s a s1 e1 :
  m s = (Return a, s1, e1) -> bind m k s = prefix_events e1 (k a s1).
Proof.
  intros H. unfold bind, prefix_events. rewrite H.
  destruct (k a s1) as [[o d] e]. reflexivity.
Qed.

Lemma bind_run_raise {A B} (m : M A) (k : A -> M B) s x s1 e1 :
  m s = (Raise x, s1, e1) -> bind m k s = (Raise x, s1, e1).
Proof. intros H. unfold bind. rewrite H. reflexivity. Qed.

(** Rewrite with the lookups at hand while executing. *)
Ltac exec_with_lookups :=
  cbn;
  repeat (match goal with
          | H : ?x = _ |- context [?x] => rewrite H
          end; cbn).

(** ** No configuration *)

Lemma address_unresolved_none a c vmi :
  address_unresolved a vmi ->
  _get_interface_address vmi (mkDriver a c) = (Return None, mkDriver a c, [])
  \/ (exists i, _get_interface_address vmi (mkDriver a c)
               = (Return None, mkDriver a c, [InstanceIpRead i; LogError NoIdError]))
  \/ (exists i, _get_interface_address vmi (mkDriver a c)
               = (Return None, mkDriver a c, [InstanceIpRead i])).
Proof.
  intros [H|i rest H Hi|i rest iip H Hi Ha];
    unfold _get_interface_address; unfold_reads; unfold_monad.
  - left. exec_with_lookups. reflexivity.
  - right. left. exists (ref_uuid i). exec_with_lookups. reflexivity.
  - right. right. exists (ref_uuid i). exec_with_lookups. reflexivity.
Qed.

Lemma no_configuration_calculates_none pool vip s :
  no_configuration (_api s) vip ->
  outcome_of (_calculate_instance_properties pool vip s) = Return None.
Proof.
  destruct s as [a c]. cbn.
  intros [H|r rest H Hr|r rest vmi H Hr Hn|r rest vmi n nrest H Hr Hn Haddr].
  - unfold_calculator. exec_with_lookups. reflexivity.
  - unfold_calculator. exec_with_lookups. reflexivity.
  - unfold_calculator. exec_with_lookups. reflexivity.
  - apply (address_unresolved_none a c) in Haddr.
    unfold _calculate_instance_properties, _get_virtual_ip_interface.
    unfold_reads. unfold index0.
    unfold bind at 1. unfold try_except at 1. unfold bind at 1. rewrite H. cbn.
    unfold bind at 1. unfold api_read. cbn. rewrite Hr. cbn. 
    rewrite Hn. cbn. unfold bind at 1. cbn. unfold bind at 1.
    destruct Haddr as [Ha|[[i Ha]|[i Ha]]]; rewrite Ha; reflexivity.
Qed.

(** ** Missing pool or VIP *)

Lemma reconcile_pool_missing s pool_id vip_id :
  loadbalancer_pools (_api s) !! pool_id = None ->
  _update_loadbalancer_instance pool_id vip_id s
    = (Raise (BadRequest "pool" ("Unable to retrieve pool " +:+ pool_id)), s,
       [LoadbalancerPoolRead pool_id]).
Proof.
  intros H. unfold _update_loadbalancer_instance, loadbalancer_pool_read.
  unfold bind at 1. unfold try_except at 1, api_read at 1. rewrite H. reflexivity.
Qed.

Lemma reconcile_vip_missing s pool_id vip_id pool :
  loadbalancer_pools (_api s) !! pool_id = Some pool ->
  virtual_ips (_api s) !! vip_id = None ->
  _update_loadbalancer_instance pool_id vip_id s
    = (Raise (BadRequest "vip" ("Unable to retrieve virtual-ip " +:+ vip_id)), s,
       [LoadbalancerPoolRead pool_id; VirtualIpRead vip_id]).
Proof.
  intros Hp H. unfold _update_loadbalancer_instance, loadbalancer_pool_read, virtual_ip_read.
  unfold bind at 1. unfold try_except at 1, api_read at 1. rewrite Hp.
  unfold bind at 1. unfold try_except at 1, api_read at 1. rewrite H. reflexivity.
Qed.

(** C6: when the pool read fails with not-found, reconcile fails with a
    "bad request" on resource [pool] whose message names the pool id;
    otherwise, when the VIP read fails with not-found, it fails with a "bad
    request" on resource [vip] whose message names the virtual-ip id. In both
    cases the adapter and the store are as before and no write was issued. *)
Theorem reconcile_missing_pool_or_vip (s : Driver) (pool_id vip_id : string) :
  loadbalancer_pools (_api s) !! pool_id = None
  \/ virtual_ips (_api s) !! vip_id = None ->
  let r := _update_loadbalancer_instance pool_id vip_id s in
  outcome_of r =
    Raise (match loadbalancer_pools (_api s) !! pool_id with
           | None => BadRequest "pool" ("Unable to retrieve pool " +:+ pool_id)
           | Some _ => BadRequest "vip" ("Unable to retrieve virtual-ip " +:+ vip_id)
           end)
  /\ state_of r = s
  /\ writes (events_of r) = [].
Proof.
  intros H r. subst r.
  destruct (loadbalancer_pools (_api s) !! pool_id) as [pool|] eqn:Hp.
  - destruct H as [H|H]; [discriminate|].
    rewrite (reconcile_vip_missing _ _ _ _ Hp H). auto.
  - rewrite (reconcile_pool_missing _ _ _ Hp). auto.
Qed.

Lemma reconcile_missing_pool_or_vip_witness :
  (outcome_of (_update_loadbalancer_instance "p9" "v1" Scenario.one_network)
     = Raise (BadRequest "pool" "Unable to retrieve pool p9")
   /\ state_of (_update_loadbalancer_instance "p9" "v1" Scenario.one_network)
     = Scenario.one_network)
  /\ outcome_of (_update_loadbalancer_instance "p1" "v9" Scenario.one_network)
     = Raise (BadRequest "vip" "Unable to retrieve virtual-ip v9").
Proof.
  split.
  - destruct (reconcile_missing_pool_or_vip Scenario.one_network "p9" "v1")
      as (Ho & Hs & _); [left; reflexivity|].
    split; [exact Ho | exact Hs].
  - destruct (reconcile_missing_pool_or_vip Scenario.one_network "p1" "v9")
      as (Ho & _); [right; reflexivity|].
    exact Ho.
Defined.

(** ** Teardown *)

Lemma clear_project_found s tenant_id pool_id project :
  projects (_api s) !! tenant_id = Some project ->
  _clear_loadbalancer_instance tenant_id pool_id s
    = prefix_events [ProjectRead tenant_id]
        (try_service_instance_delete (project_fq_name project ++ [pool_id]) s).
Proof.
  intros H. unfold _clear_loadbalancer_instance, project_read.
  unfold bind at 1. unfold try_except at 1. unfold bind at 1. unfold api_read.
  rewrite H. cbn.
  destruct (try_service_instance_delete _ s) as [[o d] e]. reflexivity.
Qed.

(** C8: when the project read fails with not-found, the clear call logs the
    error and returns without calling the service-instance delete and without
    raising; when the project is found and the delete fails with "references
    exist", the call logs that error and returns. *)
Theorem clear_is_tolerant (s : Driver) (tenant_id pool_id : string) :
  (projects (_api s) !! tenant_id = None ->
   _clear_loadbalancer_instance tenant_id pool_id s
     = (Return tt, s, [ProjectRead tenant_id; LogError NoIdError]))
  /\ (forall project,
      projects (_api s) !! tenant_id = Some project ->
      outcome_of (service_instance_delete (project_fq_name project ++ [pool_id]) s)
        = Raise RefsExistError ->
      _clear_loadbalancer_instance tenant_id pool_id s
        = (Return tt, s,
           [ProjectRead tenant_id;
            ServiceInstanceDelete (project_fq_name project ++ [pool_id]);
            LogError RefsExistError])).
Proof.
  split.
  - intros H. unfold _clear_loadbalancer_instance, project_read.
    unfold bind at 1. unfold try_except at 1. unfold bind at 1. unfold api_read.
    rewrite H. reflexivity.
  - intros project H Hdel. rewrite (clear_project_found _ _ _ _ H).
    rewrite try_delete_run. unfold service_instance_delete in Hdel.
    destruct (service_instances (_api s) !! _) as [si|]; [|discriminate].
    cbn in Hdel. destruct (has_back_refs (_api s) si); [reflexivity|discriminate].
Qed.

Lemma clear_is_tolerant_witness :
  _clear_loadbalancer_instance "tenant9" "p1" Scenario.associated
    = (Return tt, Scenario.associated, [ProjectRead "tenant9"; LogError NoIdError])
  /\ _clear_loadbalancer_instance "tenant1" "p1" Scenario.associated
    = (Return tt, Scenario.associated,
       [ProjectRead "tenant1"; ServiceInstanceDelete Scenario.fq;
        LogError RefsExistError]).
Proof.
  destruct (clear_is_tolerant Scenario.associated "tenant9" "p1") as [H1 _].
  destruct (clear_is_tolerant Scenario.associated "tenant1" "p1") as [_ H2].
  split.
  - apply H1. reflexivity.
  - apply (H2 (mkProject Scenario.scope)); vm_compute; reflexivity.
Defined.

(** ** The delete is not guarded *)

(** C9: in the "no configuration" branch of reconcile and in the clear path
    the service-instance delete is always called, and of its failures only
    "references exist" is absorbed: when no instance exists at the derived
    qualified name, the delete's not-found error reaches the caller. *)
Theorem delete_not_found_propagates (s : Driver) (pool_id : string) :
  (forall vip_id pool vip,
      loadbalancer_pools (_api s) !! pool_id = Some pool ->
      virtual_ips (_api s) !! vip_id = Some vip ->
      outcome_of (_calculate_instance_properties pool vip s) = Return None ->
      let fq := instance_fq_name pool pool_id in
      let r := _update_loadbalancer_instance pool_id vip_id s in
      writes (events_of r) = [ServiceInstanceDelete fq]
      /\ outcome_of r = match outcome_of (service_instance_delete fq s) with
                        | Raise RefsExistError => Return tt
                        | o => o
                        end
      /\ (service_instances (_api s) !! fq = None -> outcome_of r = Raise NoIdError))
  /\ (forall tenant_id project,
      projects (_api s) !! tenant_id = Some project ->
      let fq := project_fq_name project ++ [pool_id] in
      let r := _clear_loadbalancer_instance tenant_id pool_id s in
      writes (events_of r) = [ServiceInstanceDelete fq]
      /\ outcome_of r = match outcome_of (service_instance_delete fq s) with
                        | Raise RefsExistError => Return tt
                        | o => o
                        end
      /\ (service_instances (_api s) !! fq = None -> outcome_of r = Raise NoIdError)).
Proof.
  split.
  - intros vip_id pool vip Hp Hv Hc fq r. subst r.
    rewrite (reconcile_no_configuration _ _ _ _ _ Hp Hv Hc).
    unfold prefix_events. cbn [outcome_of events_of fst snd].
    rewrite writes_app, reads_no_writes.
    destruct (try_delete_events fq s) as (Hw & _). fold fq. rewrite Hw.
    split; [reflexivity|]. split; [apply try_delete_outcome|].
    intros Hnone. rewrite try_delete_run, Hnone. reflexivity.
  - intros tenant_id project Hp fq r. subst r.
    rewrite (clear_project_found _ _ _ _ Hp). fold fq.
    unfold prefix_events. cbn [outcome_of events_of fst snd].
    rewrite writes_app. destruct (try_delete_events fq s) as (Hw & _). rewrite Hw.
    split; [reflexivity|]. split; [apply try_delete_outcome|].
    intros Hnone. rewrite try_delete_run, Hnone. reflexivity.
Qed.

Lemma delete_not_found_propagates_witness :
  outcome_of (_update_loadbalancer_instance "p1" "v1" Scenario.unbound)
    = Raise NoIdError
  /\ outcome_of (_clear_loadbalancer_instance "tenant1" "p1" Scenario.unbound)
    = Raise NoIdError.
Proof.
  destruct (delete_not_found_propagates Scenario.unbound "p1") as [H1 H2].
  split.
  - destruct (H1 "v1" (Scenario.pool_on "subnet-A" None) Scenario.vip_unbound)
      as (_ & _ & H); [reflexivity | reflexivity | reflexivity |].
    apply H. reflexivity.
  - destruct (H2 "tenant1" (mkProject Scenario.scope)) as (_ & _ & H);
      [reflexivity|].
    apply H. reflexivity.
Defined.

(** ** No configuration: delete only *)

(** C3, as amended: when the VIP has no interface reference, the interface
    read fails with not-found, the interface has no virtual-network reference
    or no bound address can be resolved, the calculator yields "no
    configuration" without raising, and reconcile calls the service-instance
    delete at the derived qualified name and nothing else that writes: no
    create, no update, no template read, the template cache as before. The
    call returns normally when an instance exists at that name; when none
    exists it ends with the delete's not-found error. *)
Theorem no_configuration_deletes_only
    (s : Driver) (pool_id vip_id : string) (pool : LoadbalancerPool) (vip : VirtualIp) :
  loadbalancer_pools (_api s) !! pool_id = Some pool ->
  virtual_ips (_api s) !! vip_id = Some vip ->
  no_configuration (_api s) vip ->
  let fq := instance_fq_name pool pool_id in
  let r := _update_loadbalancer_instance pool_id vip_id s in
  outcome_of (_calculate_instance_properties pool vip s) = Return None
  /\ writes (events_of r) = [ServiceInstanceDelete fq]
  /\ List.filter is_template_read (events_of r) = []
  /\ _lb_template (state_of r) = _lb_template s
  /\ (is_Some (service_instances (_api s) !! fq) -> outcome_of r = Return tt)
  /\ (service_instances (_api s) !! fq = None -> outcome_of r = Raise NoIdError).
Proof.
  intros Hp Hv Hnc fq r. subst r.
  pose proof (no_configuration_calculates_none pool vip s Hnc) as Hc.
  split; [exact Hc|].
  rewrite (reconcile_no_configuration _ _ _ _ _ Hp Hv Hc).
  unfold prefix_events. cbn [outcome_of state_of events_of fst snd].
  fold fq. destruct (try_delete_events fq s) as (Hw & Ht & Hl).
  rewrite writes_app, reads_no_writes, Hw.
  rewrite List.filter_app, Ht. cbn [List.filter is_template_read app].
  rewrite calculate_no_template_read.
  repeat split; try reflexivity; try exact Hl.
  - intros [si Hsi]. rewrite try_delete_run, Hsi.
    destruct (has_back_refs (_api s) si); reflexivity.
  - intros Hnone. rewrite try_delete_run, Hnone. reflexivity.
Qed.

Lemma no_configuration_deletes_only_witness :
  writes (events_of (_update_loadbalancer_instance "p1" "v1" Scenario.unbound_deployed))
    = [ServiceInstanceDelete Scenario.fq]
  /\ outcome_of (_update_loadbalancer_instance "p1" "v1" Scenario.unbound_deployed)
    = Return tt.
Proof.
  destruct (no_configuration_deletes_only Scenario.unbound_deployed "p1" "v1"
              (Scenario.pool_on "subnet-A" None) Scenario.vip_unbound)
    as (_ & Hw & _ & _ & Hr & _).
  - reflexivity.
  - reflexivity.
  - apply no_interface_reference. reflexivity.
  - split; [exact Hw|]. apply Hr. eexists. reflexivity.
Defined.

(** C3, as stated, fails: the VIP has no interface reference, the calculator
    yields "no configuration", yet reconcile does not return: nothing is
    deployed for the pool and the delete's not-found error ends the call. *)
Lemma no_configuration_may_not_return :
  loadbalancer_pools (_api Scenario.unbound) !! "p1"
    = Some (Scenario.pool_on "subnet-A" None)
  /\ virtual_ips (_api Scenario.unbound) !! "v1" = Some Scenario.vip_unbound
  /\ virtual_machine_interface_refs Scenario.vip_unbound = None
  /\ outcome_of (_calculate_instance_properties (Scenario.pool_on "subnet-A" None)
                   Scenario.vip_unbound Scenario.unbound) = Return None
  /\ outcome_of (_update_loadbalancer_instance "p1" "v1" Scenario.unbound)
     = Raise NoIdError
  /\ outcome_of (_update_loadbalancer_instance "p1" "v1" Scenario.unbound)
     <> Return tt.
Proof. vm_compute. repeat split; try reflexivity. discriminate. Qed.

(** ** The handlers that load the template first *)

Lemma get_template_first_event s :
  _lb_template s = None ->
  exists o d, _get_template s = (o, d, [ServiceTemplateRead LOADBALANCER_SERVICE_TEMPLATE]).
Proof.
  intros Hc.
  destruct (service_templates (_api s) !! LOADBALANCER_SERVICE_TEMPLATE) as [t|] eqn:Ht.
  - rewrite (get_template_fetch s t Hc Ht). eauto.
  - rewrite (get_template_missing s Hc Ht). eauto.
Qed.

Lemma template_first {A} (k : unit -> M A) s :
  _lb_template s = None ->
  (exists rest, events_of (bind _get_template k s)
                = ServiceTemplateRead LOADBALANCER_SERVICE_TEMPLATE :: rest)
  /\ (service_templates (_api s) !! LOADBALANCER_SERVICE_TEMPLATE = None ->
      bind _get_template k s
        = (Raise (NameError "pool_id"), s,
           [ServiceTemplateRead LOADBALANCER_SERVICE_TEMPLATE])).
Proof.
  intros Hc. split.
  - destruct (get_template_first_event s Hc) as (o & d & H).
    unfold bind. rewrite H. destruct o.
    + destruct (k a d) as [[o' d'] e']. eexists. reflexivity.
    + eexists. reflexivity.
  - intros Ht. apply bind_run_raise. apply get_template_missing; assumption.
Qed.

(** C10: [create_vip] and [create_pool] load the template before they look at
    the relation field. With the template not cached, the first call of either
    handler is the template read, whatever the relation field holds; with an
    empty [pool_id] (or [vip_id]) the template read is the only call, the
    handler returns when the template is found, and when it is not found the
    failure reaches the caller although nothing is reconciled. *)
Theorem create_handlers_load_template_first (s : Driver) :
  _lb_template s = None ->
  let tr := ServiceTemplateRead LOADBALANCER_SERVICE_TEMPLATE in
  let missing := service_templates (_api s) !! LOADBALANCER_SERVICE_TEMPLATE = None in
  (forall vip,
      (exists rest, events_of (create_vip vip s) = tr :: rest)
      /\ (missing -> create_vip vip s = (Raise (NameError "pool_id"), s, [tr]))
      /\ (truthy (vip_pool_id vip) = false ->
          events_of (create_vip vip s) = [tr]
          /\ (~ missing -> outcome_of (create_vip vip s) = Return tt)))
  /\ (forall pool,
      (exists rest, events_of (create_pool pool s) = tr :: rest)
      /\ (missing -> create_pool pool s = (Raise (NameError "pool_id"), s, [tr]))
      /\ (truthy (pool_vip_id pool) = false ->
          events_of (create_pool pool s) = [tr]
          /\ (~ missing -> outcome_of (create_pool pool s) = Return tt))).
Proof.
  intros Hc tr missing. subst tr missing.
  split; intros d; unfold create_vip, create_pool;
    (split; [apply template_first; exact Hc|]);
    (split; [apply template_first; exact Hc|]);
    intros Hf; rewrite Hf;
    destruct (service_templates (_api s) !! LOADBALANCER_SERVICE_TEMPLATE)
      as [t|] eqn:Ht.
  all: try (rewrite (bind_run_return _ _ _ _ _ _ (get_template_fetch s t Hc Ht));
            split; [reflexivity|intros _; reflexivity]).
  all: rewrite (bind_run_raise _ _ _ _ _ _ (get_template_missing s Hc Ht));
       split; [reflexivity|intros Hn; exfalso; apply Hn; reflexivity].
Qed.

Lemma create_handlers_load_template_first_witness :
  create_vip Scenario.vip_without_pool Scenario.no_template
    = (Raise (NameError "pool_id"), Scenario.no_template,
       [ServiceTemplateRead LOADBALANCER_SERVICE_TEMPLATE])
  /\ create_pool Scenario.pool_without_vip Scenario.no_template
    = (Raise (NameError "pool_id"), Scenario.no_template,
       [ServiceTemplateRead LOADBALANCER_SERVICE_TEMPLATE])
  /\ events_of (create_vip Scenario.vip_without_pool Scenario.one_network)
    = [ServiceTemplateRead LOADBALANCER_SERVICE_TEMPLATE].
Proof.
  destruct (create_handlers_load_template_first Scenario.no_template eq_refl)
    as [Hv Hp].
  destruct (create_handlers_load_template_first Scenario.one_network eq_refl)
    as [Hv' _].
  split; [|split].
  - apply (Hv Scenario.vip_without_pool). reflexivity.
  - apply (Hp Scenario.pool_without_vip). reflexivity.
  - apply (Hv' Scenario.vip_without_pool). reflexivity.
Defined.

(** ** Two defects of the calculator and of the template loader *)

(** C1, at the two-network scenario: the pool's subnet belongs to [net-B], the
    VIP's interface sits on [net-A], the backend network is found in the store,
    and the calculation ends with an attribute error instead of properties
    carrying ["net-B"]; so does the reconcile call, before any write. *)
Theorem two_networks_attribute_error :
  let pool := Scenario.pool_on "subnet-B" None in
  let c := _calculate_instance_properties pool Scenario.vip_bound Scenario.two_networks in
  let r := _update_loadbalancer_instance "p1" "v1" Scenario.two_networks in
  outcome_of c = Raise (AttributeError "'list' object has no attribute 'join'")
  /\ events_of c = [VirtualMachineInterfaceRead "vmi1"; InstanceIpRead "iip1";
                    SubnetNetworkLookup "subnet-B"; VirtualNetworkRead "net-b-id"]
  /\ outcome_of r = Raise (AttributeError "'list' object has no attribute 'join'")
  /\ writes (events_of r) = [].
Proof. vm_compute. repeat split; reflexivity. Qed.

(** C2, at a store without the well-known template: properties are computed,
    the template is not cached, its read fails with not-found, and the call
    ends with a name error on [pool_id], not with a "bad request". *)
Theorem missing_template_name_error :
  let pool := Scenario.pool_on "subnet-A" None in
  let r := _update_loadbalancer_instance "p1" "v1" Scenario.no_template in
  outcome_of (_calculate_instance_properties pool Scenario.vip_bound Scenario.no_template)
    = Return (Some Scenario.props_A)
  /\ _lb_template Scenario.no_template = None
  /\ outcome_of (service_template_read LOADBALANCER_SERVICE_TEMPLATE Scenario.no_template)
    = Raise NoIdError
  /\ outcome_of r = Raise (NameError "pool_id")
  /\ (forall resource msg, outcome_of r <> Raise (BadRequest resource msg)).
Proof.
  vm_compute. repeat split; try reflexivity. intros resource msg H. discriminate H.
Qed.

(** ** Reconcile with properties at hand *)

Lemma reference_events pool si_obj s :
  (events_of (update_pool_reference pool si_obj s)
     = [LoadbalancerPoolUpdate (set_service_instance si_obj pool)]
   /\ reference_differs (service_instance_refs pool) (si_uuid si_obj))
  \/ (events_of (update_pool_reference pool si_obj s) = []
      /\ state_of (update_pool_reference pool si_obj s) = s
      /\ ~ reference_differs (service_instance_refs pool) (si_uuid si_obj)).
Proof.
  destruct (reference_cases pool si_obj) as [H|[(r & rest & H & Heq)|H]].
  - left. rewrite (reference_stale _ _ _ H), pool_update_events. auto.
  - right. rewrite (reference_current _ _ _ _ _ H Heq).
    repeat split. intros [H'|(r' & rest' & H' & Hne)]; congruence.
  - right. rewrite (reference_empty _ _ _ H).
    repeat split. intros [H'|(r' & rest' & H' & Hne)]; congruence.
Qed.

Lemma reference_keeps_instances pool si_obj s :
  service_instances (_api (state_of (update_pool_reference pool si_obj s)))
    = service_instances (_api s).
Proof.
  destruct (reference_cases pool si_obj) as [H|[(r & rest & H & Heq)|H]].
  - rewrite (reference_stale _ _ _ H), pool_update_run.
    destruct (_ !! _); reflexivity.
  - rewrite (reference_current _ _ _ _ _ H Heq). reflexivity.
  - rewrite (reference_empty _ _ _ H). reflexivity.
Qed.

Section Configured.

Variables (pool_id vip_id : string) (s : Driver).
Variables (pool : LoadbalancerPool) (vip : VirtualIp) (props : ServiceInstanceType).
Hypothesis Hpool : loadbalancer_pools (_api s) !! pool_id = Some pool.
Hypothesis Hvip : virtual_ips (_api s) !! vip_id = Some vip.
Hypothesis Hcalc :
  outcome_of (_calculate_instance_properties pool vip s) = Return (Some props).

Let fq := instance_fq_name pool pool_id.
Let reads := [LoadbalancerPoolRead pool_id; VirtualIpRead vip_id]
             ++ events_of (_calculate_instance_properties pool vip s).

(** The run of a call whose template load and instance resolution succeed. *)
Lemma reconcile_resolved s1 evt si_obj s2 evr :
  _get_template s = (Return tt, s1, evt) ->
  resolve_service_instance fq props s1 = (Return si_obj, s2, evr) ->
  _update_loadbalancer_instance pool_id vip_id s
    = prefix_events (reads ++ evt ++ evr) (update_pool_reference pool si_obj s2).
Proof.
  intros Ht Hr. rewrite (reconcile_configuration _ _ _ _ _ Hpool Hvip _ Hcalc).
  rewrite (bind_run_return _ _ _ _ _ _ Ht).
  rewrite (bind_run_return _ _ _ _ _ _ Hr).
  unfold prefix_events. cbn [outcome_of state_of events_of fst snd].
  fold reads. rewrite <- !app_assoc. reflexivity.
Qed.

Lemma reconcile_template_missing :
  _lb_template s = None ->
  service_templates (_api s) !! LOADBALANCER_SERVICE_TEMPLATE = None ->
  _update_loadbalancer_instance pool_id vip_id s
    = (Raise (NameError "pool_id"), s,
       reads ++ [ServiceTemplateRead LOADBALANCER_SERVICE_TEMPLATE]).
Proof.
  intros Hc Ht. rewrite (reconcile_configuration _ _ _ _ _ Hpool Hvip _ Hcalc).
  rewrite (bind_run_raise _ _ _ _ _ _ (get_template_missing s Hc Ht)).
  reflexivity.
Qed.

Lemma template_cases :
  template_available s
  \/ (_lb_template s = None
      /\ service_templates (_api s) !! LOADBALANCER_SERVICE_TEMPLATE = None).
Proof.
  unfold template_available.
  destruct (_lb_template s); [left; left; eauto|].
  destruct (service_templates (_api s) !! _); [left; right; eauto|right; auto].
Qed.

(** A stored instance with the desired properties and a pool whose reference
    does not differ: the call writes nothing and leaves the store alone. *)
Lemma reconcile_quiet si cur :
  service_instances (_api s) !! fq = Some si ->
  service_instance_properties si = Some cur ->
  differing_fields cur props = 0 ->
  ~ reference_differs (service_instance_refs pool) (si_uuid si) ->
  writes (events_of (_update_loadbalancer_instance pool_id vip_id s)) = []
  /\ _api (state_of (_update_loadbalancer_instance pool_id vip_id s)) = _api s.
Proof.
  intros Hsi Hcur Hd Hnd.
  destruct template_cases as [Hav|[Hc Ht]].
  - destruct (get_template_ok s Hav) as (t & evt & Hrun & Hw & _).
    pose proof (resolve_found_same fq props (mkDriver (_api s) (Some t)) si cur
                  Hsi Hcur Hd) as Hres.
    rewrite (reconcile_resolved _ _ _ _ _ Hrun Hres).
    unfold prefix_events. cbn [outcome_of state_of events_of fst snd].
    destruct (reference_events pool (set_service_instance_properties props si)
                (mkDriver (_api s) (Some t))) as [[_ Hdiff]|(He & Hst & _)].
    + exfalso. apply Hnd. exact Hdiff.
    + rewrite He, Hst. rewrite !writes_app. fold reads.
      unfold reads at 1. rewrite writes_app, calculate_no_writes, Hw. auto.
  - rewrite (reconcile_template_missing Hc Ht).
    cbn [outcome_of state_of events_of fst snd]. rewrite writes_app.
    unfold reads. rewrite writes_app, calculate_no_writes. auto.
Qed.

End Configured.


(** ** Property drift *)

(** C5: when a stored instance is found whose properties differ from the
    computed ones in exactly one of the three fields, the call performs
    exactly one service-instance update; the record it pushes carries the
    whole of the desired properties, and that record is what the store holds
    afterwards. *)
Theorem drift_triggers_one_update
    (s : Driver) (pool_id vip_id : string) (pool : LoadbalancerPool) (vip : VirtualIp)
    (props cur : ServiceInstanceType) (si : ServiceInstance) :
  loadbalancer_pools (_api s) !! pool_id = Some pool ->
  virtual_ips (_api s) !! vip_id = Some vip ->
  outcome_of (_calculate_instance_properties pool vip s) = Return (Some props) ->
  template_available s ->
  service_instances (_api s) !! instance_fq_name pool pool_id = Some si ->
  si_fq_name si = instance_fq_name pool pool_id ->
  service_instance_properties si = Some cur ->
  differing_fields cur props = 1 ->
  let r := _update_loadbalancer_instance pool_id vip_id s in
  let pushed := set_service_instance_properties props si in
  List.filter is_si_update (events_of r) = [ServiceInstanceUpdate pushed]
  /\ service_instance_properties pushed = Some props
  /\ service_instances (_api (state_of r)) !! instance_fq_name pool pool_id
     = Some pushed.
Proof.
  intros Hp Hv Hc Hav Hsi Hfq Hcur Hd r pushed. subst r pushed.
  destruct (get_template_ok s Hav) as (t & evt & Hrun & Hw & Hu & _).
  assert (Hne : differing_fields cur props <> 0) by (rewrite Hd; discriminate).
  pose proof (resolve_found_drift (instance_fq_name pool pool_id) props
                (mkDriver (_api s) (Some t)) si cur Hsi Hfq Hcur Hne) as Hres.
  rewrite (reconcile_resolved _ _ _ _ _ _ Hp Hv Hc _ _ _ _ _ Hrun Hres).
  unfold prefix_events. cbn [outcome_of state_of events_of fst snd].
  split; [|split; [reflexivity|]].
  - rewrite !List.filter_app, Hu.
    destruct (no_writes_no_kind _ (calculate_no_writes pool vip s)) as (Hk & _).
    cbn [List.filter is_si_update app]. rewrite Hk.
    destruct (reference_events pool (set_service_instance_properties props si)
                (state_of (resolve_service_instance (instance_fq_name pool pool_id)
                             props (mkDriver (_api s) (Some t)))))
      as [[He _]|[He _]]; rewrite Hres in He; cbn [state_of fst snd] in He;
      rewrite He; reflexivity.
  - rewrite reference_keeps_instances. cbn. apply lookup_insert_eq.
Qed.

Lemma drift_triggers_one_update_witness :
  List.filter is_si_update
    (events_of (_update_loadbalancer_instance "p1" "v1" Scenario.drifted))
  = [ServiceInstanceUpdate (Scenario.instance_with Scenario.props_A)].
Proof.
  destruct (drift_triggers_one_update Scenario.drifted "p1" "v1"
              (Scenario.pool_on "subnet-A" None) Scenario.vip_bound
              Scenario.props_A (mkProps (Some "net-A") (Some "10.0.0.9") None)
              (Scenario.instance_with (mkProps (Some "net-A") (Some "10.0.0.9") None)))
    as (H & _).
  - reflexivity.
  - reflexivity.
  - vm_compute. reflexivity.
  - right. eexists. reflexivity.
  - reflexivity.
  - reflexivity.
  - reflexivity.
  - vm_compute. reflexivity.
  - exact H.
Defined.

(** ** The pool's reference to its instance *)

Lemma resolve_identity fq props s t :
  _lb_template s = Some t ->
  (forall si, service_instances (_api s) !! fq = Some si -> stored_instance_ok fq si) ->
  exists si_obj s2 evr,
    resolve_service_instance fq props s = (Return si_obj, s2, evr)
    /\ si_uuid si_obj = resolved_uuid (_api s) fq
    /\ si_fq_name si_obj = fq
    /\ List.filter is_pool_update evr = [].
Proof.
  intros Ht Hok. unfold resolved_uuid.
  destruct (service_instances (_api s) !! fq) as [si|] eqn:Hsi.
  - destruct (Hok si eq_refl) as [Hfq [cur Hcur]].
    destruct (decide (differing_fields cur props = 0)) as [Hd|Hd].
    + do 3 eexists. rewrite (resolve_found_same fq props s si cur Hsi Hcur Hd).
      repeat split. exact Hfq.
    + do 3 eexists. rewrite (resolve_found_drift fq props s si cur Hsi Hfq Hcur Hd).
      repeat split. exact Hfq.
  - do 3 eexists. rewrite (resolve_created fq props s t Hsi Ht).
    repeat split.
Qed.

(** C7: in a reconcile call that finds the instance (updating it or not) or
    creates it, a pool update is pushed exactly when the pool has no stored
    service-instance reference or its stored reference carries a uuid other
    than the resolved instance's; the pool pushed then refers to that
    instance, and when the uuids agree no pool update occurs. *)
Theorem pool_update_iff_reference_differs
    (s : Driver) (pool_id vip_id : string) (pool : LoadbalancerPool) (vip : VirtualIp)
    (props : ServiceInstanceType) :
  loadbalancer_pools (_api s) !! pool_id = Some pool ->
  virtual_ips (_api s) !! vip_id = Some vip ->
  outcome_of (_calculate_instance_properties pool vip s) = Return (Some props) ->
  template_available s ->
  (forall si, service_instances (_api s) !! instance_fq_name pool pool_id = Some si ->
              stored_instance_ok (instance_fq_name pool pool_id) si) ->
  let fq := instance_fq_name pool pool_id in
  let u := resolved_uuid (_api s) fq in
  let pushes := List.filter is_pool_update
                  (events_of (_update_loadbalancer_instance pool_id vip_id s)) in
  (pushes <> [] <-> reference_differs (service_instance_refs pool) u)
  /\ (reference_differs (service_instance_refs pool) u ->
      pushes = [LoadbalancerPoolUpdate
                  (mkPool (pool_uuid pool) (pool_fq_name pool)
                     (loadbalancer_pool_properties pool)
                     (Some [mkRef fq (default "" u)]))])
  /\ (~ reference_differs (service_instance_refs pool) u -> pushes = []).
Proof.
  intros Hp Hv Hc Hav Hok fq u pushes.
  destruct (get_template_ok s Hav) as (t & evt & Hrun & _ & _ & Hpu).
  destruct (resolve_identity fq props (mkDriver (_api s) (Some t)) t eq_refl Hok)
    as (si_obj & s2 & evr & Hres & Hu & Hfq & Hevr).
  cbn [_api] in Hu. fold u in Hu.
  assert (Hpushes : pushes = List.filter is_pool_update
                               (events_of (update_pool_reference pool si_obj s2))).
  { subst pushes. rewrite (reconcile_resolved _ _ _ _ _ _ Hp Hv Hc _ _ _ _ _ Hrun Hres).
    unfold prefix_events. cbn [outcome_of state_of events_of fst snd].
    rewrite !List.filter_app, Hpu, Hevr.
    destruct (no_writes_no_kind _ (calculate_no_writes pool vip s)) as (_ & _ & Hk & _).
    cbn [List.filter is_pool_update app]. rewrite Hk. reflexivity. }
  rewrite Hpushes. clear Hpushes.
  destruct (reference_events pool si_obj s2) as [[He Hd]|(He & _ & Hd)];
    rewrite He, Hu in *; cbn [List.filter is_pool_update].
  - split; [split; [intros _; exact Hd|intros _; discriminate]|].
    split; [|intros Hn; contradiction].
    intros _. unfold set_service_instance. rewrite Hfq, Hu. reflexivity.
  - split; [split; [intros Hn; contradiction|intros Hn; contradiction]|].
    split; [intros Hn; contradiction|reflexivity].
Qed.

Lemma pool_update_iff_reference_differs_witness :
  List.filter is_pool_update
    (events_of (_update_loadbalancer_instance "p1" "v1" Scenario.one_network))
    = [LoadbalancerPoolUpdate
         (Scenario.pool_on "subnet-A" (Some [mkRef Scenario.fq "uuid-0"]))]
  /\ List.filter is_pool_update
       (events_of (_update_loadbalancer_instance "p1" "v1" Scenario.associated))
     = [].
Proof.
  split.
  - destruct (pool_update_iff_reference_differs Scenario.one_network "p1" "v1"
                (Scenario.pool_on "subnet-A" None) Scenario.vip_bound Scenario.props_A)
      as (_ & H & _).
    + reflexivity.
    + reflexivity.
    + vm_compute. reflexivity.
    + right. eexists. reflexivity.
    + intros si Hsi. vm_compute in Hsi. discriminate Hsi.
    + apply H. left. reflexivity.
  - destruct (pool_update_iff_reference_differs Scenario.associated "p1" "v1"
                (Scenario.pool_on "subnet-A" (Some [mkRef Scenario.fq "si-1"]))
                Scenario.vip_bound Scenario.props_A)
      as (_ & _ & H).
    + reflexivity.
    + reflexivity.
    + vm_compute. reflexivity.
    + right. eexists. reflexivity.
    + intros si Hsi. vm_compute in Hsi. inversion Hsi; subst si.
      split; [reflexivity|eexists; reflexivity].
    + apply H. intros [Hn|(r & rest & Hr & Hne)]; [discriminate Hn|].
      vm_compute in Hr. inversion Hr; subst r rest. apply Hne. reflexivity.
Defined.

(** ** Idempotence *)

Lemma calculate_outcome_transfer pool pool' vip s s' o :
  outcome_of (_calculate_instance_properties pool vip s) = o ->
  loadbalancer_pool_properties pool' = loadbalancer_pool_properties pool ->
  virtual_machine_interfaces (_api s') = virtual_machine_interfaces (_api s) ->
  instance_ips (_api s') = instance_ips (_api s) ->
  virtual_networks (_api s') = virtual_networks (_api s) ->
  subnets (_api s') = subnets (_api s) ->
  outcome_of (_calculate_instance_properties pool' vip s') = o.
Proof.
  intros <- Hp H1 H2 H3 H4.
  apply (calculate_frame pool vip pool' s s' Hp H1 H2 H3 H4).
Qed.


(** * Further properties of the driver *)

(** ** Relations kept by every run *)

Section Respects.

Variable R : Driver -> Driver -> list Event -> Prop.
Hypothesis R_refl : forall s, R s s [].
Hypothesis R_trans :
  forall s s1 s2 e1 e2, R s s1 e1 -> R s1 s2 e2 -> R s s2 (e1 ++ e2).

Lemma respects_ret {A} (a : A) : respects R (ret a).
Proof. intros s. apply R_refl. Qed.

Lemma respects_raise {A} (e : exn) : respects R (@raise A e).
Proof. intros s. apply R_refl. Qed.

Lemma respects_bind {A B} (m : M A) (k : A -> M B) :
  respects R m -> (forall a, respects R (k a)) -> respects R (bind m k).
Proof.
  intros Hm Hk s. specialize (Hm s). unfold bind.
  destruct (m s) as [[[a|e] s1] e1]; cbn in Hm |- *; [|exact Hm].
  specialize (Hk a s1). destruct (k a s1) as [[o s2] e2]. cbn in Hk |- *.
  eapply R_trans; eassumption.
Qed.

Lemma respects_try_except {A} (body : M A) (handler : exn -> option (M A)) :
  respects R body ->
  (forall e h, handler e = Some h -> respects R h) ->
  respects R (try_except body handler).
Proof.
  intros Hb Hh s. specialize (Hb s). unfold try_except.
  destruct (body s) as [[[a|e] s1] e1]; cbn in Hb |- *; [exact Hb|].
  destruct (handler e) as [h|] eqn:He; [|exact Hb].
  specialize (Hh e h He s1). destruct (h s1) as [[o s2] e2]. cbn in Hh |- *.
  eapply R_trans; eassumption.
Qed.

Lemma respects_index0 {A} (l : list A) : respects R (index0 l).
Proof. destruct l; [apply respects_raise|apply respects_ret]. Qed.

Lemma respects_get_lb_template : respects R get_lb_template.
Proof. intros s. apply R_refl. Qed.

(** The calls on the remote client, the log and the template loader. *)
Hypothesis R_project_read : forall id, respects R (project_read id).
Hypothesis R_virtual_network_read : forall id, respects R (virtual_network_read id).
Hypothesis R_virtual_machine_interface_read :
  forall id, respects R (virtual_machine_interface_read id).
Hypothesis R_instance_ip_read : forall id, respects R (instance_ip_read id).
Hypothesis R_loadbalancer_pool_read : forall id, respects R (loadbalancer_pool_read id).
Hypothesis R_virtual_ip_read : forall id, respects R (virtual_ip_read id).
Hypothesis R_service_instance_read : forall fq, respects R (service_instance_read fq).
Hypothesis R_get_subnet_network_id : forall sn, respects R (get_subnet_network_id sn).
Hypothesis R_LOG_error : forall ex, respects R (LOG_error ex).
Hypothesis R_get_template : respects R _get_template.
Hypothesis R_delete : forall fq, respects R (service_instance_delete fq).
Hypothesis R_create : forall si, respects R (service_instance_create si).
Hypothesis R_update : forall si, respects R (service_instance_update si).
Hypothesis R_pool_update : forall p, respects R (loadbalancer_pool_update p).

Ltac respects_step :=
  match goal with
  | |- respects _ (ret _) => apply respects_ret
  | |- respects _ (raise _) => apply respects_raise
  | |- respects _ (bind _ _) => apply respects_bind; [|intros ?]
  | |- respects _ (try_except _ _) => apply respects_try_except; [|intros ? ? ?]
  | |- respects _ (index0 _) => apply respects_index0
  | |- respects _ (match ?x with _ => _ end) => destruct x
  | |- respects _ (if ?x then _ else _) => destruct x
  | H : except_NoIdError _ ?e = Some _ |- _ =>
      destruct e; cbn in H; try discriminate H; injection H as <-
  | H : except_RefsExistError _ ?e = Some _ |- _ =>
      destruct e; cbn in H; try discriminate H; injection H as <-
  | |- respects _ _ => solve [auto]
  end.

Lemma respects_get_virtual_ip_interface vip :
  respects R (_get_virtual_ip_interface vip).
Proof. unfold _get_virtual_ip_interface. repeat respects_step. Qed.

Lemma respects_get_interface_address vmi :
  respects R (_get_interface_address vmi).
Proof. unfold _get_interface_address. repeat respects_step. Qed.

Lemma respects_calculate pool vip :
  respects R (_calculate_instance_properties pool vip).
Proof.
  pose proof respects_get_virtual_ip_interface.
  pose proof respects_get_interface_address.
  unfold _calculate_instance_properties, pool_attrs_subnet_id, list_join.
  repeat respects_step.
Qed.

Lemma respects_try_delete fq : respects R (try_service_instance_delete fq).
Proof. unfold try_service_instance_delete. repeat respects_step. Qed.

Lemma respects_fields_loop current nprops fs :
  respects R (fields_loop current nprops fs).
Proof.
  induction fs as [|f fs IH]; cbn [fields_loop]; [apply respects_ret|].
  unfold getattr. repeat respects_step.
Qed.

Lemma respects_resolve fq props : respects R (resolve_service_instance fq props).
Proof.
  pose proof respects_fields_loop.
  unfold resolve_service_instance, _service_instance_update_props,
    set_service_template_cached.
  repeat respects_step.
Qed.

Lemma respects_update_pool_reference pool si_obj :
  respects R (update_pool_reference pool si_obj).
Proof.
  unfold update_pool_reference, pool_reference_stale. repeat respects_step.
Qed.

Lemma respects_reconcile pool_id vip_id :
  respects R (_update_loadbalancer_instance pool_id vip_id).
Proof.
  pose proof respects_calculate. pose proof respects_update_pool_reference.
  pose proof respects_try_delete. pose proof respects_resolve.
  unfold _update_loadbalancer_instance. repeat respects_step.
Qed.

Lemma respects_clear tenant_id pool_id :
  respects R (_clear_loadbalancer_instance tenant_id pool_id).
Proof.
  pose proof respects_try_delete.
  unfold _clear_loadbalancer_instance. repeat respects_step.
Qed.

Lemma respects_perform c : respects R (perform c).
Proof.
  pose proof respects_reconcile. pose proof respects_clear.
  destruct c; cbn [perform];
    unfold create_vip, update_vip, delete_vip, create_pool, update_pool, delete_pool,
      stats, create_member, update_member, delete_member, update_pool_health_monitor,
      create_pool_health_monitor, delete_pool_health_monitor;
    repeat respects_step.
Qed.

Lemma respects_perform_all cs s :
  R s (fst (perform_all cs s)) (snd (perform_all cs s)).
Proof.
  revert s. induction cs as [|c cs IH]; intros s; cbn [perform_all fst snd].
  - apply R_refl.
  - eapply R_trans; [apply (respects_perform c s)|apply IH].
Qed.

End Respects.

(** ** The template cache over the adapter's lifetime *)

Ltac primitive_run :=
  intros ?;
  unfold project_read, virtual_network_read, virtual_machine_interface_read,
    instance_ip_read, loadbalancer_pool_read, virtual_ip_read,
    service_instance_read, get_subnet_network_id, api_read, LOG_error, emit,
    service_instance_delete, service_instance_create, service_instance_update,
    loadbalancer_pool_update;
  exec.

Lemma cache_kept_refl s : cache_kept s s [].
Proof. intros t Ht. auto. Qed.

Lemma cache_kept_trans s s1 s2 e1 e2 :
  cache_kept s s1 e1 -> cache_kept s1 s2 e2 -> cache_kept s s2 (e1 ++ e2).
Proof.
  intros H1 H2 t Ht. destruct (H1 t Ht) as [Hc1 Hf1].
  destruct (H2 t Hc1) as [Hc2 Hf2]. rewrite List.filter_app, Hf1, Hf2. auto.
Qed.

Lemma cache_kept_get_template : respects cache_kept _get_template.
Proof.
  intros s t Ht. rewrite (get_template_cached s t Ht). auto.
Qed.

Lemma cache_kept_perform_all cs s :
  cache_kept s (fst (perform_all cs s)) (snd (perform_all cs s)).
Proof.
  apply (respects_perform_all cache_kept cache_kept_refl cache_kept_trans);
    try exact cache_kept_get_template;
    intros x; primitive_run; intros t Ht; auto.
Qed.

(** X1: once the template is cached, it stays cached and is never read
    again, whatever sequence of plugin calls follows, including calls that
    raise and a store that no longer holds the template. *)
Theorem template_cached_for_good (cs : list Call) (s : Driver) (t : ServiceTemplate) :
  _lb_template s = Some t ->
  _lb_template (fst (perform_all cs s)) = Some t
  /\ List.filter is_template_read (snd (perform_all cs s)) = [].
Proof. intros Ht. exact (cache_kept_perform_all cs s t Ht). Qed.

Lemma template_cached_for_good_witness :
  let calls := [CreateVip Cases.vip_of_p1; UpdatePool Cases.pool_with_v1 Cases.pool_with_v1;
                DeleteVip Cases.vip_of_p1; CreatePool Cases.pool_with_v1] in
  _lb_template (fst (perform_all calls Cases.cached)) = Some Scenario.tmpl
  /\ List.filter is_template_read (snd (perform_all calls Cases.cached)) = [].
Proof.
  apply (template_cached_for_good
           [CreateVip Cases.vip_of_p1; UpdatePool Cases.pool_with_v1 Cases.pool_with_v1;
            DeleteVip Cases.vip_of_p1; CreatePool Cases.pool_with_v1]
           Cases.cached Scenario.tmpl).
  reflexivity.
Defined.

(** ** What teardown leaves alone *)

Lemma only_removes_refl s : only_removes s s [].
Proof. repeat split; done. Qed.

Lemma only_removes_trans s s1 s2 e1 e2 :
  only_removes s s1 e1 -> only_removes s1 s2 e2 -> only_removes s s2 (e1 ++ e2).
Proof.
  intros (Hp1 & Ht1 & Hs1 & Hf1) (Hp2 & Ht2 & Hs2 & Hf2).
  repeat split; try congruence.
  - transitivity (service_instances (_api s1)); assumption.
  - rewrite List.filter_app, Hf1, Hf2. reflexivity.
Qed.

Lemma only_removes_clear tenant_id pool_id :
  respects only_removes (_clear_loadbalancer_instance tenant_id pool_id).
Proof.
  apply (respects_clear only_removes only_removes_refl only_removes_trans);
    intros x; primitive_run; repeat split; try done.
  apply delete_subseteq.
Qed.

(** X3: the clear path, [delete_vip] and [delete_pool] never create or alter
    anything: pools and the template cache are as before, every instance left
    in the store was there before unchanged, and no create, update, pool
    update or template read is issued. *)
Theorem teardown_only_removes (s : Driver) :
  (forall tenant_id pool_id,
      let r := _clear_loadbalancer_instance tenant_id pool_id s in
      only_removes s (state_of r) (events_of r))
  /\ (forall vip, only_removes s (state_of (delete_vip vip s))
                   (events_of (delete_vip vip s)))
  /\ (forall pool, only_removes s (state_of (delete_pool pool s))
                    (events_of (delete_pool pool s))).
Proof.
  split; [|split].
  - intros tenant_id pool_id. apply only_removes_clear.
  - intros vip. unfold delete_vip. destruct (truthy _).
    + apply only_removes_clear.
    + apply only_removes_refl.
  - intros pool. apply only_removes_clear.
Qed.

(** ** What the calculator computes *)

Lemma calculate_some_inv pool vip s props :
  outcome_of (_calculate_instance_properties pool vip s) = Return (Some props) ->
  exists n addr attrs,
    vip_side (_api s) vip n addr
    /\ loadbalancer_pool_properties pool = Some attrs
    /\ subnets (_api s) !! subnet_id attrs = Some (ref_uuid n)
    /\ props = mkProps (Some (str_join ":" (ref_to n))) (Some addr) None.
Proof.
  unfold vip_side. unfold_calculator.
  exec; intros H; try discriminate H; injection H as <-; subst.
  match goal with
  | Hb : negb (String.eqb ?x ?y) = false |- _ =>
      apply negb_false_iff, String.eqb_eq in Hb; subst
  end.
  do 3 eexists. split; [do 7 eexists; repeat split; eassumption|].
  repeat split; eassumption.
Qed.

Lemma calculate_some_run pool vip s n addr attrs :
  vip_side (_api s) vip n addr ->
  loadbalancer_pool_properties pool = Some attrs ->
  subnets (_api s) !! subnet_id attrs = Some (ref_uuid n) ->
  outcome_of (_calculate_instance_properties pool vip s)
    = Return (Some (mkProps (Some (str_join ":" (ref_to n))) (Some addr) None)).
Proof.
  intros (r & rest & vmi & nrest & i & irest & iip & H1 & H2 & H3 & H4 & H5 & H6) Ha Hs.
  destruct s as [a c]. cbn [_api] in *. unfold_calculator.
  exec_with_lookups. rewrite String.eqb_refl. reflexivity.
Qed.

(** X4: the calculator yields properties exactly when the VIP's first
    interface, its first network reference and its first bound address
    resolve and the pool's subnet belongs to that same network; the
    properties are then the colon-joined name of that network, that address
    and no backend network. *)
Theorem properties_computed_iff
    (pool : LoadbalancerPool) (vip : VirtualIp) (s : Driver) (props : ServiceInstanceType) :
  outcome_of (_calculate_instance_properties pool vip s) = Return (Some props)
  <-> exists n addr attrs,
        vip_side (_api s) vip n addr
        /\ loadbalancer_pool_properties pool = Some attrs
        /\ subnets (_api s) !! subnet_id attrs = Some (ref_uuid n)
        /\ props = mkProps (Some (str_join ":" (ref_to n))) (Some addr) None.
Proof.
  split.
  - apply calculate_some_inv.
  - intros (n & addr & attrs & Hv & Ha & Hs & ->).
    eapply calculate_some_run; eassumption.
Qed.

Lemma properties_computed_iff_witness :
  outcome_of (_calculate_instance_properties (Scenario.pool_on "subnet-A" None)
                Scenario.vip_bound Scenario.one_network)
  = Return (Some Scenario.props_A).
Proof.
  apply (properties_computed_iff (Scenario.pool_on "subnet-A" None)
           Scenario.vip_bound Scenario.one_network Scenario.props_A).
  exists (mkRef ["net-A"] "net-a-id"), "10.0.0.5", (mkPoolType "subnet-A").
  split; [|repeat split; reflexivity].
  exists (mkRef (Scenario.scope ++ ["vmi1"]) "vmi1"), [], Scenario.vmi1, [],
    (mkRef ["iip1"] "iip1"), [], (mkInstanceIp (Some "10.0.0.5")).
  repeat split; reflexivity.
Defined.

Lemma reconcile_calculator_raises pool_id vip_id s pool vip e :
  loadbalancer_pools (_api s) !! pool_id = Some pool ->
  virtual_ips (_api s) !! vip_id = Some vip ->
  outcome_of (_calculate_instance_properties pool vip s) = Raise e ->
  _update_loadbalancer_instance pool_id vip_id s
    = (Raise e, s,
       [LoadbalancerPoolRead pool_id; VirtualIpRead vip_id]
       ++ events_of (_calculate_instance_properties pool vip s)).
Proof.
  intros Hpool Hvip Hcalc. apply calculate_run in Hcalc.
  unfold _update_loadbalancer_instance, loadbalancer_pool_read, virtual_ip_read.
  unfold bind at 1. unfold try_except at 1, api_read at 1. rewrite Hpool.
  unfold bind at 1. unfold try_except at 1, api_read at 1. rewrite Hvip.
  unfold bind at 1. rewrite Hcalc. reflexivity.
Qed.

Lemma calculate_backend_found pool vip s n addr attrs net vnet :
  vip_side (_api s) vip n addr ->
  loadbalancer_pool_properties pool = Some attrs ->
  subnets (_api s) !! subnet_id attrs = Some net ->
  net <> ref_uuid n ->
  virtual_networks (_api s) !! net = Some vnet ->
  outcome_of (_calculate_instance_properties pool vip s)
    = Raise (AttributeError "'list' object has no attribute 'join'").
Proof.
  intros (r & rest & vmi & nrest & i & irest & iip & H1 & H2 & H3 & H4 & H5 & H6)
    Ha Hs Hne Hvn.
  apply String.eqb_neq in Hne.
  destruct s as [a c]. cbn [_api] in *. unfold_calculator.
  exec_with_lookups. reflexivity.
Qed.

Lemma calculate_backend_missing pool vip s n addr attrs net :
  vip_side (_api s) vip n addr ->
  loadbalancer_pool_properties pool = Some attrs ->
  subnets (_api s) !! subnet_id attrs = Some net ->
  net <> ref_uuid n ->
  virtual_networks (_api s) !! net = None ->
  outcome_of (_calculate_instance_properties pool vip s) = Return None
  /\ exists evs, events_of (_calculate_instance_properties pool vip s)
                 = evs ++ [VirtualNetworkRead net; LogError NoIdError].
Proof.
  intros (r & rest & vmi & nrest & i & irest & iip & H1 & H2 & H3 & H4 & H5 & H6)
    Ha Hs Hne Hvn.
  apply String.eqb_neq in Hne.
  destruct s as [a c]. cbn [_api] in *. unfold_calculator.
  exec_with_lookups. split; [reflexivity|].
  eexists [_; _; _]. reflexivity.
Qed.

(** X5: whenever the VIP's first interface, that interface's first network
    reference and its first bound address resolve, the pool's subnet belongs
    to a network other than that one, and this backend network is found in
    the store, reconcile ends with the attribute error of [list.join]; the
    adapter and the store are as before and nothing was written. *)
Theorem two_network_topology_raises
    (s : Driver) (pool_id vip_id : string) (pool : LoadbalancerPool) (vip : VirtualIp)
    (n : Ref) (addr : string) (attrs : LoadbalancerPoolType) (net : string)
    (vnet : VirtualNetwork) :
  loadbalancer_pools (_api s) !! pool_id = Some pool ->
  virtual_ips (_api s) !! vip_id = Some vip ->
  vip_side (_api s) vip n addr ->
  loadbalancer_pool_properties pool = Some attrs ->
  subnets (_api s) !! subnet_id attrs = Some net ->
  net <> ref_uuid n ->
  virtual_networks (_api s) !! net = Some vnet ->
  let r := _update_loadbalancer_instance pool_id vip_id s in
  outcome_of r = Raise (AttributeError "'list' object has no attribute 'join'")
  /\ state_of r = s
  /\ writes (events_of r) = [].
Proof.
  intros Hp Hv Hside Ha Hs Hne Hvn r. subst r.
  rewrite (reconcile_calculator_raises _ _ _ _ _ _ Hp Hv
             (calculate_backend_found _ _ _ _ _ _ _ _ Hside Ha Hs Hne Hvn)).
  repeat split. cbn [events_of snd]. rewrite writes_app, calculate_no_writes. reflexivity.
Qed.

Lemma scenario_vip_side pool tmpls sis :
  vip_side (Scenario.store pool Scenario.vip_bound tmpls sis) Scenario.vip_bound
    (mkRef ["net-A"] "net-a-id") "10.0.0.5".
Proof.
  exists (mkRef (Scenario.scope ++ ["vmi1"]) "vmi1"), [], Scenario.vmi1, [],
    (mkRef ["iip1"] "iip1"), [], (mkInstanceIp (Some "10.0.0.5")).
  repeat split; reflexivity.
Qed.

Lemma two_network_topology_raises_witness :
  outcome_of (_update_loadbalancer_instance "p1" "v1" Scenario.two_networks)
  = Raise (AttributeError "'list' object has no attribute 'join'").
Proof.
  apply (two_network_topology_raises Scenario.two_networks "p1" "v1"
           (Scenario.pool_on "subnet-B" None) Scenario.vip_bound
           (mkRef ["net-A"] "net-a-id") "10.0.0.5" (mkPoolType "subnet-B")
           "net-b-id" (mkVnet ["net-B"])).
  - reflexivity.
  - reflexivity.
  - apply scenario_vip_side.
  - reflexivity.
  - reflexivity.
  - discriminate.
  - reflexivity.
Defined.

(** X6: when the pool's subnet belongs to a network other than the VIP's
    and that network is not in the store, the calculator logs the not-found
    error and yields "no configuration", and reconcile goes on to the delete
    of the instance as its only write. *)
Theorem missing_backend_network_is_no_configuration
    (s : Driver) (pool_id vip_id : string) (pool : LoadbalancerPool) (vip : VirtualIp)
    (n : Ref) (addr : string) (attrs : LoadbalancerPoolType) (net : string) :
  loadbalancer_pools (_api s) !! pool_id = Some pool ->
  virtual_ips (_api s) !! vip_id = Some vip ->
  vip_side (_api s) vip n addr ->
  loadbalancer_pool_properties pool = Some attrs ->
  subnets (_api s) !! subnet_id attrs = Some net ->
  net <> ref_uuid n ->
  virtual_networks (_api s) !! net = None ->
  let c := _calculate_instance_properties pool vip s in
  let r := _update_loadbalancer_instance pool_id vip_id s in
  outcome_of c = Return None
  /\ (exists evs, events_of c = evs ++ [VirtualNetworkRead net; LogError NoIdError])
  /\ writes (events_of r) = [ServiceInstanceDelete (instance_fq_name pool pool_id)].
Proof.
  intros Hp Hv Hside Ha Hs Hne Hvn c r. subst c r.
  destruct (calculate_backend_missing _ _ _ _ _ _ _ Hside Ha Hs Hne Hvn) as [Hc Hev].
  split; [exact Hc|]. split; [exact Hev|].
  rewrite (reconcile_no_configuration _ _ _ _ _ Hp Hv Hc).
  unfold prefix_events. cbn [events_of snd].
  rewrite !writes_app, calculate_no_writes.
  destruct (try_delete_events (instance_fq_name pool pool_id) s) as (Hw & _).
  rewrite Hw. reflexivity.
Qed.

Lemma missing_backend_network_is_no_configuration_witness :
  outcome_of (_calculate_instance_properties (Scenario.pool_on "subnet-C" None)
                Scenario.vip_bound Cases.dangling_backend) = Return None
  /\ writes (events_of (_update_loadbalancer_instance "p1" "v1" Cases.dangling_backend))
     = [ServiceInstanceDelete Scenario.fq].
Proof.
  destruct (missing_backend_network_is_no_configuration Cases.dangling_backend
              "p1" "v1" (Scenario.pool_on "subnet-C" None) Scenario.vip_bound
              (mkRef ["net-A"] "net-a-id") "10.0.0.5" (mkPoolType "subnet-C") "net-c-id")
    as (Hc & _ & Hw).
  - reflexivity.
  - reflexivity.
  - exists (mkRef (Scenario.scope ++ ["vmi1"]) "vmi1"), [], Scenario.vmi1, [],
      (mkRef ["iip1"] "iip1"), [], (mkInstanceIp (Some "10.0.0.5")).
    repeat split; reflexivity.
  - reflexivity.
  - reflexivity.
  - discriminate.
  - reflexivity.
  - split; [exact Hc|exact Hw].
Defined.

(** ** Reference lists without entries *)

Lemma empty_reference_list_raises pool vip s :
  empty_reference_list (_api s) vip ->
  outcome_of (_calculate_instance_properties pool vip s) = Raise IndexError.
Proof.
  destruct s as [a c]. cbn [_api].
  intros [H|r rest vmi H Hr Hn|r rest vmi n nrest H Hr Hn Hi];
    unfold_calculator; exec_with_lookups; reflexivity.
Qed.

(** X7: a reference list that is present but empty (on the VIP, or the
    network or instance-ip list of its interface) is not "no configuration":
    reconcile ends with an index error, the adapter and the store are as
    before, and no delete or other write is issued. *)
Theorem empty_reference_list_is_an_error
    (s : Driver) (pool_id vip_id : string) (pool : LoadbalancerPool) (vip : VirtualIp) :
  loadbalancer_pools (_api s) !! pool_id = Some pool ->
  virtual_ips (_api s) !! vip_id = Some vip ->
  empty_reference_list (_api s) vip ->
  let r := _update_loadbalancer_instance pool_id vip_id s in
  outcome_of r = Raise IndexError
  /\ state_of r = s
  /\ writes (events_of r) = [].
Proof.
  intros Hp Hv He r. subst r.
  rewrite (reconcile_calculator_raises _ _ _ _ _ _ Hp Hv
             (empty_reference_list_raises pool vip s He)).
  repeat split. cbn [events_of snd]. rewrite writes_app, calculate_no_writes. reflexivity.
Qed.

Lemma empty_reference_list_is_an_error_witness :
  outcome_of (_update_loadbalancer_instance "p1" "v1" Cases.empty_list) = Raise IndexError
  /\ state_of (_update_loadbalancer_instance "p1" "v1" Cases.empty_list)
     = Cases.empty_list.
Proof.
  destruct (empty_reference_list_is_an_error Cases.empty_list "p1" "v1"
              (Scenario.pool_on "subnet-A" None) Cases.vip_empty_list)
    as (Ho & Hs & _).
  - reflexivity.
  - reflexivity.
  - apply empty_interface_list. reflexivity.
  - split; [exact Ho|exact Hs].
Defined.

(** ** The comparison loop *)

Lemma no_difference_iff_equal (a b : ServiceInstanceType) :
  differing_fields a b = 0 <-> a = b.
Proof.
  destruct a as [a1 a2 a3], b as [b1 b2 b3]. unfold differing_fields. cbn.
  split.
  - repeat case_bool_decide; cbn; intros Hd; try discriminate Hd; congruence.
  - intros Heq. injection Heq as -> -> ->.
    rewrite !bool_decide_eq_true_2 by reflexivity. reflexivity.
Qed.

(** X8: [_service_instance_update_props] always puts the new properties
    into the instance, and the flag it returns is true exactly when the
    stored record differs from the new one; it calls nothing. *)
Theorem update_flag_iff_difference
    (si : ServiceInstance) (cur nprops : ServiceInstanceType) (s : Driver) :
  service_instance_properties si = Some cur ->
  exists update,
    _service_instance_update_props si nprops s
      = (Return (set_service_instance_properties nprops si, update), s, [])
    /\ (update = true <-> cur <> nprops).
Proof.
  intros H. eexists. split; [apply (update_props_run _ _ _ _ H)|].
  rewrite negb_true_iff, Nat.eqb_neq, no_difference_iff_equal. reflexivity.
Qed.

Lemma update_flag_iff_difference_witness :
  _service_instance_update_props (Scenario.instance_with Scenario.props_A)
      Scenario.props_A Scenario.one_network
    = (Return (Scenario.instance_with Scenario.props_A, false), Scenario.one_network, [])
  /\ exists update,
       _service_instance_update_props
         (Scenario.instance_with (mkProps (Some "net-A") (Some "10.0.0.9") None))
         Scenario.props_A Scenario.one_network
       = (Return (Scenario.instance_with Scenario.props_A, update),
          Scenario.one_network, [])
       /\ (update = true <-> mkProps (Some "net-A") (Some "10.0.0.9") None
                             <> Scenario.props_A).
Proof.
  split; [reflexivity|].
  apply (update_flag_iff_difference
           (Scenario.instance_with (mkProps (Some "net-A") (Some "10.0.0.9") None))
           (mkProps (Some "net-A") (Some "10.0.0.9") None) Scenario.props_A
           Scenario.one_network).
  reflexivity.
Defined.

(** ** Failures after the properties are computed *)

Lemma resolve_without_properties fq props s si :
  service_instances (_api s) !! fq = Some si ->
  service_instance_properties si = None ->
  exists msg, resolve_service_instance fq props s
              = (Raise (AttributeError msg), s, [ServiceInstanceRead fq]).
Proof.
  intros Hsi Hnone.
  destruct (update_props_none si props s Hnone) as [msg Hrun].
  exists msg. unfold resolve_service_instance, service_instance_read.
  unfold try_except, bind at 1, api_read. rewrite Hsi.
  unfold bind at 1. rewrite Hrun. reflexivity.
Qed.

(** X9: an instance stored without a properties record makes reconcile end
    with an attribute error raised by the comparison; the error is not taken
    for "not found", so nothing is created, and the store is as before. *)
Theorem instance_without_properties_raises
    (s : Driver) (pool_id vip_id : string) (pool : LoadbalancerPool) (vip : VirtualIp)
    (props : ServiceInstanceType) (si : ServiceInstance) :
  loadbalancer_pools (_api s) !! pool_id = Some pool ->
  virtual_ips (_api s) !! vip_id = Some vip ->
  outcome_of (_calculate_instance_properties pool vip s) = Return (Some props) ->
  template_available s ->
  service_instances (_api s) !! instance_fq_name pool pool_id = Some si ->
  service_instance_properties si = None ->
  let r := _update_loadbalancer_instance pool_id vip_id s in
  (exists msg, outcome_of r = Raise (AttributeError msg))
  /\ _api (state_of r) = _api s
  /\ writes (events_of r) = [].
Proof.
  intros Hp Hv Hc Hav Hsi Hnone r. subst r.
  destruct (get_template_ok s Hav) as (t & evt & Hrun & Hw & _).
  destruct (resolve_without_properties (instance_fq_name pool pool_id) props
              (mkDriver (_api s) (Some t)) si Hsi Hnone) as [msg Hres].
  rewrite (reconcile_configuration _ _ _ _ _ Hp Hv _ Hc).
  rewrite (bind_run_return _ _ _ _ _ _ Hrun).
  rewrite (bind_run_raise _ _ _ _ _ _ Hres).
  unfold prefix_events. cbn [outcome_of state_of events_of fst snd].
  split; [eauto|]. split; [reflexivity|].
  rewrite !writes_app, calculate_no_writes, Hw. reflexivity.
Qed.

Lemma instance_without_properties_raises_witness :
  (exists msg, outcome_of (_update_loadbalancer_instance "p1" "v1" Cases.bare)
               = Raise (AttributeError msg))
  /\ writes (events_of (_update_loadbalancer_instance "p1" "v1" Cases.bare)) = [].
Proof.
  destruct (instance_without_properties_raises Cases.bare "p1" "v1"
              (Scenario.pool_on "subnet-A" None) Scenario.vip_bound Scenario.props_A
              Cases.bare_instance) as (Ho & _ & Hw).
  - reflexivity.
  - reflexivity.
  - vm_compute. reflexivity.
  - right. eexists. reflexivity.
  - reflexivity.
  - reflexivity.
  - split; [exact Ho|exact Hw].
Defined.

(** X10: whenever properties are computed, the template is not cached and
    the store does not hold it, reconcile ends with the name error on
    [pool_id] after exactly one template read; the adapter and the store are
    as before and nothing was written. *)
Theorem missing_template_stops_before_any_write
    (s : Driver) (pool_id vip_id : string) (pool : LoadbalancerPool) (vip : VirtualIp)
    (props : ServiceInstanceType) :
  loadbalancer_pools (_api s) !! pool_id = Some pool ->
  virtual_ips (_api s) !! vip_id = Some vip ->
  outcome_of (_calculate_instance_properties pool vip s) = Return (Some props) ->
  _lb_template s = None ->
  service_templates (_api s) !! LOADBALANCER_SERVICE_TEMPLATE = None ->
  let r := _update_loadbalancer_instance pool_id vip_id s in
  outcome_of r = Raise (NameError "pool_id")
  /\ state_of r = s
  /\ writes (events_of r) = []
  /\ List.filter is_template_read (events_of r)
     = [ServiceTemplateRead LOADBALANCER_SERVICE_TEMPLATE].
Proof.
  intros Hp Hv Hc Hcache Ht r. subst r.
  rewrite (reconcile_template_missing _ _ _ _ _ _ Hp Hv Hc Hcache Ht).
  cbn [outcome_of state_of events_of fst snd].
  rewrite !writes_app, !List.filter_app, calculate_no_writes,
    calculate_no_template_read.
  repeat split.
Qed.

Lemma missing_template_stops_before_any_write_witness :
  outcome_of (_update_loadbalancer_instance "p1" "v1" Scenario.no_template)
    = Raise (NameError "pool_id")
  /\ state_of (_update_loadbalancer_instance "p1" "v1" Scenario.no_template)
    = Scenario.no_template.
Proof.
  destruct (missing_template_stops_before_any_write Scenario.no_template "p1" "v1"
              (Scenario.pool_on "subnet-A" None) Scenario.vip_bound Scenario.props_A)
    as (Ho & Hs & _).
  - reflexivity.
  - reflexivity.
  - vm_compute. reflexivity.
  - reflexivity.
  - reflexivity.
  - split; [exact Ho|exact Hs].
Defined.

(** ** First deployment and convergence *)




Lemma set_properties_same si props :
  service_instance_properties si = Some props ->
  set_service_instance_properties props si = si.
Proof. destruct si. cbn. intros ->. reflexivity. Qed.

(** What resolving the instance leaves behind, whichever way it went. *)
Lemma resolve_settles fq props s t :
  _lb_template s = Some t ->
  (forall si, service_instances (_api s) !! fq = Some si ->
              stored_instance_ok fq si /\ is_Some (si_uuid si)) ->
  exists si_obj s2 evr,
    resolve_service_instance fq props s = (Return si_obj, s2, evr)
    /\ service_instances (_api s2) !! fq = Some si_obj
    /\ service_instance_properties si_obj = Some props
    /\ is_Some (si_uuid si_obj)
    /\ _lb_template s2 = Some t
    /\ loadbalancer_pools (_api s2) = loadbalancer_pools (_api s)
    /\ virtual_ips (_api s2) = virtual_ips (_api s)
    /\ virtual_machine_interfaces (_api s2) = virtual_machine_interfaces (_api s)
    /\ instance_ips (_api s2) = instance_ips (_api s)
    /\ virtual_networks (_api s2) = virtual_networks (_api s)
    /\ subnets (_api s2) = subnets (_api s).
Proof.
  intros Ht Hok.
  destruct (service_instances (_api s) !! fq) as [si|] eqn:Hsi.
  - destruct (Hok si eq_refl) as [[Hfq [cur Hcur]] Hu].
    destruct (decide (differing_fields cur props = 0)) as [Hd|Hd].
    + do 3 eexists. rewrite (resolve_found_same fq props s si cur Hsi Hcur Hd).
      apply no_difference_iff_equal in Hd. subst cur.
      rewrite (set_properties_same si props Hcur).
      repeat split; assumption.
    + do 3 eexists. rewrite (resolve_found_drift fq props s si cur Hsi Hfq Hcur Hd).
      cbn. repeat split; try assumption. apply lookup_insert_eq.
  - do 3 eexists. rewrite (resolve_created fq props s t Hsi Ht).
    cbn. repeat split; try assumption; eauto. apply lookup_insert_eq.
Qed.

(** X12: a reconcile call that returns with computed properties leaves the
    store settled: the instance at the derived name carries the computed
    properties, and a second call writes nothing and leaves the store as it
    is, whether the first call created, updated or just found the instance. *)
Theorem reconcile_settles
    (s : Driver) (pool_id vip_id : string) (pool : LoadbalancerPool) (vip : VirtualIp)
    (props : ServiceInstanceType) :
  loadbalancer_pools (_api s) !! pool_id = Some pool ->
  pool_uuid pool = pool_id ->
  virtual_ips (_api s) !! vip_id = Some vip ->
  outcome_of (_calculate_instance_properties pool vip s) = Return (Some props) ->
  (forall si, service_instances (_api s) !! instance_fq_name pool pool_id = Some si ->
              stored_instance_ok (instance_fq_name pool pool_id) si
              /\ is_Some (si_uuid si)) ->
  let first := _update_loadbalancer_instance pool_id vip_id s in
  let second := _update_loadbalancer_instance pool_id vip_id (state_of first) in
  outcome_of first = Return tt ->
  writes (events_of second) = []
  /\ _api (state_of second) = _api (state_of first)
  /\ exists si,
       service_instances (_api (state_of first)) !! instance_fq_name pool pool_id
         = Some si
       /\ service_instance_properties si = Some props.
Proof.
  intros Hp Hid Hv Hc Hok first second Hret.
  destruct (template_cases s) as [Hav|[Hcache Hmiss]].
  2:{ subst first.
      rewrite (reconcile_template_missing _ _ _ _ _ _ Hp Hv Hc Hcache Hmiss) in Hret.
      discriminate Hret. }
  destruct (get_template_ok s Hav) as (t & evt & Hrun & _).
  destruct (resolve_settles (instance_fq_name pool pool_id) props
              (mkDriver (_api s) (Some t)) t eq_refl Hok)
    as (si_obj & s2 & evr & Hres & Hsi & Hprops & [u Hu] & Ht2
        & Hpools & Hvips & Hvmi & Hiip & Hvn & Hsub).
  cbn [_api] in Hpools, Hvips, Hvmi, Hiip, Hvn, Hsub.
  assert (Hfirst : first = prefix_events
            (([LoadbalancerPoolRead pool_id; VirtualIpRead vip_id]
              ++ events_of (_calculate_instance_properties pool vip s)) ++ evt ++ evr)
            (update_pool_reference pool si_obj s2))
    by (subst first; apply (reconcile_resolved _ _ _ _ _ _ Hp Hv Hc _ _ _ _ _ Hrun Hres)).
  assert (Hd : differing_fields props props = 0) by (apply no_difference_iff_equal; reflexivity).
  destruct (reference_cases pool si_obj) as [Hdiff|[(r & rest & Hr & Heq)|Hempty]].
  - (* the pool is pointed at the instance *)
    assert (Hstate : state_of first =
              mkDriver (with_loadbalancer_pools
                          (<[pool_id := set_service_instance si_obj pool]>
                             (loadbalancer_pools (_api s2))) (_api s2)) (_lb_template s2)).
    { rewrite Hfirst. unfold prefix_events. cbn [state_of fst snd].
      rewrite (reference_stale _ _ _ Hdiff), pool_update_run.
      cbn [pool_uuid set_service_instance]. rewrite Hid, Hpools, Hp. reflexivity. }
    subst second. rewrite Hstate.
    assert (Hq := reconcile_quiet pool_id vip_id
              (mkDriver (with_loadbalancer_pools
                           (<[pool_id := set_service_instance si_obj pool]>
                              (loadbalancer_pools (_api s2))) (_api s2)) (_lb_template s2))
              (set_service_instance si_obj pool) vip props).
    destruct Hq with (si := si_obj) (cur := props) as [Hw Hapi].
    + cbn. apply lookup_insert_eq.
    + cbn. rewrite Hvips. exact Hv.
    + eapply calculate_outcome_transfer; [exact Hc|reflexivity|cbn; assumption..].
    + exact Hsi.
    + exact Hprops.
    + exact Hd.
    + cbn. rewrite Hu. cbn.
      intros [Hn|(r & rest & Hr & Hne)]; [discriminate Hn|].
      inversion Hr; subst r rest. apply Hne. reflexivity.
    + split; [exact Hw|]. split; [exact Hapi|]. cbn. eauto.
  - (* the pool's reference is current already *)
    assert (Hstate : state_of first = s2).
    { rewrite Hfirst. unfold prefix_events. cbn [state_of fst snd].
      rewrite (reference_current _ _ _ _ _ Hr Heq). reflexivity. }
    subst second. rewrite Hstate.
    destruct (reconcile_quiet pool_id vip_id s2 pool vip props) with
      (si := si_obj) (cur := props) as [Hw Hapi].
    + rewrite Hpools. exact Hp.
    + rewrite Hvips. exact Hv.
    + eapply calculate_outcome_transfer; [exact Hc|reflexivity|assumption..].
    + exact Hsi.
    + exact Hprops.
    + exact Hd.
    + intros [Hn|(r' & rest' & Hr' & Hne)]; congruence.
    + split; [exact Hw|]. split; [exact Hapi|]. eauto.
  - (* an empty reference list makes the first call raise *)
    rewrite Hfirst in Hret. unfold prefix_events in Hret.
    rewrite (reference_empty _ _ _ Hempty) in Hret. discriminate Hret.
Qed.

Lemma reconcile_settles_witness :
  writes (events_of
            (_update_loadbalancer_instance "p1" "v1"
               (state_of (_update_loadbalancer_instance "p1" "v1" Scenario.one_network))))
  = []
  /\ writes (events_of
               (_update_loadbalancer_instance "p1" "v1"
                  (state_of (_update_loadbalancer_instance "p1" "v1" Scenario.drifted))))
     = [].
Proof.
  split.
  - apply (reconcile_settles Scenario.one_network "p1" "v1"
             (Scenario.pool_on "subnet-A" None) Scenario.vip_bound Scenario.props_A).
    + reflexivity.
    + reflexivity.
    + reflexivity.
    + vm_compute. reflexivity.
    + intros si Hsi. vm_compute in Hsi. discriminate Hsi.
    + vm_compute. reflexivity.
  - apply (reconcile_settles Scenario.drifted "p1" "v1"
             (Scenario.pool_on "subnet-A" None) Scenario.vip_bound Scenario.props_A).
    + reflexivity.
    + reflexivity.
    + reflexivity.
    + vm_compute. reflexivity.
    + intros si Hsi. vm_compute in Hsi. inversion Hsi; subst si.
      split; [split; [reflexivity|eexists; reflexivity]|eexists; reflexivity].
    + vm_compute. reflexivity.
Defined.

(** ** Removing the instance *)

(** X13: in the "no configuration" branch with an instance at the derived
    name, reconcile returns; if nothing refers to the instance it is gone from
    the store afterwards (and only it), otherwise the adapter and the store
    are as before and the "references exist" error is logged. *)
Theorem no_configuration_removes_instance
    (s : Driver) (pool_id vip_id : string) (pool : LoadbalancerPool) (vip : VirtualIp)
    (si : ServiceInstance) :
  loadbalancer_pools (_api s) !! pool_id = Some pool ->
  virtual_ips (_api s) !! vip_id = Some vip ->
  outcome_of (_calculate_instance_properties pool vip s) = Return None ->
  service_instances (_api s) !! instance_fq_name pool pool_id = Some si ->
  let fq := instance_fq_name pool pool_id in
  let r := _update_loadbalancer_instance pool_id vip_id s in
  outcome_of r = Return tt
  /\ (has_back_refs (_api s) si = false ->
      service_instances (_api (state_of r)) = delete fq (service_instances (_api s))
      /\ service_instances (_api (state_of r)) !! fq = None
      /\ loadbalancer_pools (_api (state_of r)) = loadbalancer_pools (_api s))
  /\ (has_back_refs (_api s) si = true ->
      state_of r = s /\ In (LogError RefsExistError) (events_of r)).
Proof.
  intros Hp Hv Hc Hsi fq r. subst r.
  rewrite (reconcile_no_configuration _ _ _ _ _ Hp Hv Hc).
  unfold prefix_events. cbn [outcome_of state_of events_of fst snd].
  fold fq. rewrite try_delete_run. fold fq in Hsi. rewrite Hsi.
  destruct (has_back_refs (_api s) si).
  - split; [reflexivity|]. split; [intros Hf; discriminate Hf|]. intros _.
    split; [reflexivity|].
    cbn [events_of snd]. apply in_or_app. right. cbn. auto.
  - split; [reflexivity|]. split; [|intros Hf; discriminate Hf]. intros _.
    cbn. split; [reflexivity|]. split; [apply lookup_delete_eq|reflexivity].
Qed.

Lemma no_configuration_removes_instance_witness :
  outcome_of (_update_loadbalancer_instance "p1" "v1" Scenario.unbound_deployed)
    = Return tt
  /\ service_instances
       (_api (state_of (_update_loadbalancer_instance "p1" "v1" Scenario.unbound_deployed)))
     !! Scenario.fq = None.
Proof.
  destruct (no_configuration_removes_instance Scenario.unbound_deployed "p1" "v1"
              (Scenario.pool_on "subnet-A" None) Scenario.vip_unbound
              (Scenario.instance_with Scenario.props_A)) as (Ho & Hdel & _).
  - reflexivity.
  - reflexivity.
  - reflexivity.
  - reflexivity.
  - split; [exact Ho|]. apply Hdel. reflexivity.
Defined.

(** ** The two derivations of the qualified name *)

Lemma instance_fq_name_in_scope pool pool_id scope name :
  pool_fq_name pool = scope ++ [name] ->
  instance_fq_name pool pool_id = scope ++ [pool_id].
Proof.
  intros H. unfold instance_fq_name. rewrite H, removelast_last. reflexivity.
Qed.

(** X14: the name reconcile derives (the pool's name without its last
    segment, plus the pool id) is the name clear derives (the project's name
    plus the pool id) exactly when the pool's parent is the project; in that
    case a "no configuration" reconcile and a clear have the same outcome,
    the same final state and the same writes. *)
Theorem clear_matches_no_configuration
    (s : Driver) (pool_id vip_id tenant_id : string) (pool : LoadbalancerPool)
    (vip : VirtualIp) (project : Project) :
  loadbalancer_pools (_api s) !! pool_id = Some pool ->
  virtual_ips (_api s) !! vip_id = Some vip ->
  outcome_of (_calculate_instance_properties pool vip s) = Return None ->
  projects (_api s) !! tenant_id = Some project ->
  let r := _update_loadbalancer_instance pool_id vip_id s in
  let c := _clear_loadbalancer_instance tenant_id pool_id s in
  (instance_fq_name pool pool_id = project_fq_name project ++ [pool_id]
   <-> removelast (pool_fq_name pool) = project_fq_name project)
  /\ (removelast (pool_fq_name pool) = project_fq_name project ->
      outcome_of r = outcome_of c
      /\ state_of r = state_of c
      /\ writes (events_of r) = writes (events_of c)).
Proof.
  intros Hp Hv Hc Hproj r c. subst r c. split.
  - unfold instance_fq_name. split.
    + intros H. apply app_inj_tail in H. apply H.
    + intros ->. reflexivity.
  - intros Hscope.
    rewrite (reconcile_no_configuration _ _ _ _ _ Hp Hv Hc).
    rewrite (clear_project_found _ _ _ _ Hproj).
    unfold instance_fq_name. rewrite Hscope.
    unfold prefix_events. cbn [outcome_of state_of events_of fst snd].
    repeat split.
    rewrite !writes_app, calculate_no_writes. reflexivity.
Qed.

Lemma clear_matches_no_configuration_witness :
  state_of (_update_loadbalancer_instance "p1" "v1" Scenario.unbound_deployed)
  = state_of (_clear_loadbalancer_instance "tenant1" "p1" Scenario.unbound_deployed).
Proof.
  destruct (clear_matches_no_configuration Scenario.unbound_deployed "p1" "v1" "tenant1"
              (Scenario.pool_on "subnet-A" None) Scenario.vip_unbound
              (mkProject Scenario.scope)) as (_ & H).
  - reflexivity.
  - reflexivity.
  - reflexivity.
  - reflexivity.
  - apply H. reflexivity.
Defined.

(** ** How much a reconcile call writes *)

Lemma resolve_write_budget fq props s :
  let r := resolve_service_instance fq props s in
  length (writes (events_of r)) <= 2
  /\ (forall si_obj, outcome_of r = Return si_obj -> length (writes (events_of r)) <= 1)
  /\ List.filter is_si_delete (events_of r) = [].
Proof.
  unfold resolve_service_instance, _service_instance_update_props, fields,
    fields_loop, getattr, set_service_template_cached, service_instance_read,
    service_instance_update, service_instance_create.
  unfold_monad. unfold writes. cbv zeta.
  exec; try congruence; (split; [cbn; lia|]); (split; [|reflexivity]);
    intros si_obj Ho; try discriminate Ho; cbn; lia.
Qed.

Lemma reference_write_budget pool si_obj s :
  length (writes (events_of (update_pool_reference pool si_obj s))) <= 1
  /\ List.filter is_si_delete (events_of (update_pool_reference pool si_obj s)) = [].
Proof.
  destruct (reference_events pool si_obj s) as [[He _]|(He & _)]; rewrite He;
    cbn; split; (lia || reflexivity).
Qed.

Lemma configured_write_budget fq props pool s :
  let r := (_get_template >>
            let* si_obj := resolve_service_instance fq props in
            update_pool_reference pool si_obj) s in
  length (writes (events_of r)) <= 2
  /\ List.filter is_si_delete (events_of r) = [].
Proof.
  cbv zeta.
  destruct (get_template_api s) as [_ Hw].
  destruct (_get_template s) as [[[[]|e] s1] evt] eqn:Hg; cbn [events_of snd] in Hw;
    destruct (no_writes_no_kind _ Hw) as (_ & _ & _ & Hd).
  2:{ rewrite (bind_run_raise _ _ _ _ _ _ Hg). cbn [events_of snd].
      split; [rewrite Hw; cbn; lia|exact Hd]. }
  rewrite (bind_run_return _ _ _ _ _ _ Hg).
  destruct (resolve_write_budget fq props s1) as (Hr2 & Hr1 & Hrd).
  cbv zeta in Hr2, Hr1, Hrd.
  destruct (resolve_service_instance fq props s1) as [[[si_obj|e] s2] evr] eqn:Hres;
    cbn [events_of outcome_of fst snd] in Hr2, Hr1, Hrd.
  - rewrite (bind_run_return _ _ _ _ _ _ Hres).
    specialize (Hr1 si_obj eq_refl).
    destruct (reference_write_budget pool si_obj s2) as [Hu Hud].
    unfold prefix_events. cbn [events_of outcome_of state_of fst snd].
    rewrite !writes_app, !List.filter_app, !List.length_app, Hw, Hd, Hrd, Hud.
    split; [cbn; lia|reflexivity].
  - rewrite (bind_run_raise _ _ _ _ _ _ Hres).
    unfold prefix_events. cbn [events_of outcome_of state_of fst snd].
    rewrite !writes_app, !List.filter_app, !List.length_app, Hw, Hd, Hrd.
    split; [cbn; lia|reflexivity].
Qed.

Lemma no_delete_not_in (evs : list Event) fq :
  List.filter is_si_delete evs = [] -> ~ In (ServiceInstanceDelete fq) (writes evs).
Proof.
  intros Hf Hin. unfold writes in Hin. apply List.filter_In in Hin as [Hin _].
  assert (In (ServiceInstanceDelete fq) (List.filter is_si_delete evs)) as H
    by (apply List.filter_In; split; [exact Hin|reflexivity]).
  rewrite Hf in H. exact H.
Qed.

(** X15: for any input, a reconcile call issues at most two writes, and a
    delete is never combined with another write: if a delete is issued it is
    the call's only write. *)
Theorem reconcile_write_budget (pool_id vip_id : string) (s : Driver) :
  let w := writes (events_of (_update_loadbalancer_instance pool_id vip_id s)) in
  length w <= 2
  /\ (forall fq, In (ServiceInstanceDelete fq) w -> w = [ServiceInstanceDelete fq]).
Proof.
  cbv zeta.
  destruct (loadbalancer_pools (_api s) !! pool_id) as [pool|] eqn:Hp.
  2:{ rewrite (reconcile_pool_missing _ _ _ Hp). cbn. split; [lia|contradiction]. }
  destruct (virtual_ips (_api s) !! vip_id) as [vip|] eqn:Hv.
  2:{ rewrite (reconcile_vip_missing _ _ _ _ Hp Hv). cbn. split; [lia|contradiction]. }
  destruct (outcome_of (_calculate_instance_properties pool vip s))
    as [[props|]|e] eqn:Hc.
  - rewrite (reconcile_configuration _ _ _ _ _ Hp Hv _ Hc).
    destruct (configured_write_budget (instance_fq_name pool pool_id) props pool s)
      as [Hlen Hdel].
    cbv zeta in Hlen, Hdel. unfold prefix_events. cbn [events_of snd].
    rewrite (writes_app (_ ++ _)), reads_no_writes. cbn [app].
    split; [exact Hlen|]. intros fq Hin. exfalso.
    exact (no_delete_not_in _ fq Hdel Hin).
  - rewrite (reconcile_no_configuration _ _ _ _ _ Hp Hv Hc).
    unfold prefix_events. cbn [events_of snd].
    rewrite (writes_app (_ ++ _)), reads_no_writes. cbn [app].
    destruct (try_delete_events (instance_fq_name pool pool_id) s) as (Hw & _).
    rewrite Hw. split; [cbn; lia|].
    intros fq [Hin|[]]. rewrite Hin. reflexivity.
  - rewrite (reconcile_calculator_raises _ _ _ _ _ _ Hp Hv Hc).
    cbn [events_of snd]. rewrite writes_app, calculate_no_writes.
    cbn. split; [lia|contradiction].
Qed.

(** * Calling reconcile twice *)


Section AfterReturn.

Variables (s : Driver) (pool_id vip_id : string).
Variables (pool : LoadbalancerPool) (vip : VirtualIp) (props : ServiceInstanceType).
Hypothesis Hp : loadbalancer_pools (_api s) !! pool_id = Some pool.
Hypothesis Hid : pool_uuid pool = pool_id.
Hypothesis Hv : virtual_ips (_api s) !! vip_id = Some vip.
Hypothesis Hc :
  outcome_of (_calculate_instance_properties pool vip s) = Return (Some props).
Hypothesis Hok :
  forall si, service_instances (_api s) !! instance_fq_name pool pool_id = Some si ->
             stored_instance_ok (instance_fq_name pool pool_id) si
             /\ is_Some (si_uuid si).



End AfterReturn.



